(** * The TypeScript worker of the Monaco editor: host interface, diagnostic
      sanitizer and worker factory

    A shallow embedding of [src/esm/vs/language/typescript/tsWorker.js].

    Conventions of the embedding.
    - A JavaScript function that reads or writes mutable state, or that may
      throw, is a computation [JS S A]: it takes the state [S] and either
      completes normally with a value and the next state, or throws.
    - [undefined] is [None]; a property that may be missing has an [option]
      type.
    - Numbers that the code stringifies (document and extra-lib versions, the
      compiler target) are integers; their JavaScript rendering is the decimal
      numeral, which is what [pretty] produces.
    - A plain object used as a dictionary is a finite map of its own
      properties. The built-in library table [libFileMap] is only ever looked
      up, so it is a [gmap]; the extra-lib table is also enumerated with
      [Object.keys], so it is kept as the list of its own entries in
      enumeration order. Both are plain objects (the extra-lib table reaches
      the worker as a structured clone, which replaces the [Object.create(null)]
      of the constructor at once), so the [in] operator and a property read
      also find what they inherit from [Object.prototype].
    - Strings are sequences of bytes. The only character the code searches
      for is the dot, and what it takes is the text after a dot, so the
      encoding of the other characters does not matter.
    - [libFileMap] is defined in [./lib/lib.js], which is not part of the
      sources at hand; every definition that reads it takes it as a
      parameter. *)

From Stdlib Require Import Ascii String.
From stdpp Require Import gmap strings list fin_maps pretty.

Open Scope Z_scope.
Open Scope string_scope.

(** ** Completions and the [JS] monad *)

Inductive Exn : Type :=
| Error (message : string)
| TypeError (message : string).

Inductive Completion (A : Type) : Type :=
| Normal (a : A)
| Throw (e : Exn).
Arguments Normal {A} a.
Arguments Throw {A} e.

Definition JS (S A : Type) : Type := S → Completion (A * S).

Definition ret {S A} (a : A) : JS S A := λ s, Normal (a, s).

Definition bind {S A B} (m : JS S A) (f : A → JS S B) : JS S B := λ s,
  match m s with
  | Normal (a, s') => f a s'
  | Throw e => Throw e
  end.

Declare Scope js_scope.
Delimit Scope js_scope with js.
Notation "'let*' x := m 'in' k" := (bind m (λ x, k))
  (at level 10, x name, m at level 100, k at level 200,
   format "'[v' 'let*'  x  :=  m  'in' '/' k ']'") : js_scope.
Open Scope js_scope.

Definition throw {S A} (e : Exn) : JS S A := λ _, Throw e.
Definition gets {S A} (f : S → A) : JS S A := λ s, Normal (f s, s).
Definition modify {S} (f : S → S) : JS S () := λ s, Normal ((), f s).

(** [Promise.resolve(v)] *)
Inductive Promise (A : Type) : Type :=
| Resolved (a : A)
| Rejected (e : Exn).
Arguments Resolved {A} a.
Arguments Rejected {A} e.

(** ** The prototype of plain objects *)

(** The properties of [Object.prototype], which every plain object
    inherits. *)
Definition Object_prototype : list string :=
  [ "constructor"; "hasOwnProperty"; "isPrototypeOf"; "propertyIsEnumerable";
    "toLocaleString"; "toString"; "valueOf"; "__proto__";
    "__defineGetter__"; "__defineSetter__";
    "__lookupGetter__"; "__lookupSetter__" ].

(** A name that a plain object has without owning it. *)
Definition inherited (k : string) : bool := bool_decide (k ∈ Object_prototype).

(** ** Plain objects used as dictionaries, with their key order *)

Module JsObject.
Definition t (V : Type) : Type := list (string * V).

(** [Object.keys(o)]: the own keys. *)
Definition keys {V} (o : t V) : list string := o.*1.

(** [k in o]: an own key, or a name of the prototype. *)
Definition has {V} (o : t V) (k : string) : bool :=
  bool_decide (k ∈ keys o) || inherited k.

(** The own property under a key. *)
Definition get {V} (o : t V) (k : string) : option V :=
  (list_to_map o : gmap string V) !! k.

(** What a property read finds: an own entry, or the function or object
    that the prototype has under that name. *)
Inductive slot (V : Type) : Type :=
| Own (v : V)
| Proto (name : string).
Arguments Own {V} v.
Arguments Proto {V} name.

(** [o[k]] *)
Definition read {V} (o : t V) (k : string) : option (slot V) :=
  match get o k with
  | Some v => Some (Own v)
  | None => if inherited k then Some (Proto k) else None
  end.

(** An object has every key once. *)
Definition wf {V} (o : t V) : Prop := NoDup (keys o).
End JsObject.

(** [k in m] for a table that is only looked up: an own key, or a name of
    the prototype. *)
Definition js_in {V} (k : string) (m : gmap string V) : bool :=
  bool_decide (is_Some (m !! k)) || inherited k.

(** What the variable [text] of [_getScriptText] can hold: a string, or the
    function or object that [Object.prototype] has under a name. *)
Inductive Text : Type :=
| Str (s : string)
| Builtin (name : string).

(** [m[k]] for the table of texts. *)
Definition js_read (m : gmap string string) (k : string) : option Text :=
  match m !! k with
  | Some s => Some (Str s)
  | None => if inherited k then Some (Builtin k) else None
  end.

(** ** Data model *)

Module MirrorModel.
(** An open document, as the worker context hands it out; [uri] stands for
    [model.uri.toString()]. *)
Record t : Type := mk { uri : string; version : Z; getValue : string }.
End MirrorModel.

Module ExtraLib.
Record t : Type := mk { content : string; version : Z }.
End ExtraLib.

Record CompilerOptions : Type := mkOptions {
  target : option Z;
  allowJs : option bool
}.

Record TypeScriptWorker : Type := mkWorker {
  (** what [this._ctx.getMirrorModels()] returns *)
  _ctx : list MirrorModel.t;
  _compilerOptions : CompilerOptions;
  _extraLibs : JsObject.t ExtraLib.t
}.

(** [ts.IScriptSnapshot], as [getScriptSnapshot] builds it: a closure over
    the resolved text, which [getText] and [getLength] read, and whose
    [getChangeRange] answers [undefined]. *)
Record ScriptSnapshot : Type := mkSnapshot { snapshot_text : string }.

(** The object that [getScriptSnapshot] returns: the closure over a text
    that is a string, or over a builtin, which has no [substring]. *)
Inductive SnapshotObject : Type :=
| TextSnapshot (snapshot : ScriptSnapshot)
| BuiltinSnapshot (name : string).

Definition snapshot_object (text : Text) : SnapshotObject :=
  match text with
  | Str s => TextSnapshot (mkSnapshot s)
  | Builtin name => BuiltinSnapshot name
  end.

(** [ts.ScriptKind] *)
Inductive ScriptKind : Type := SK_JS | SK_JSX | SK_TS | SK_TSX.

(** ** String primitives used by [getScriptKind] *)

(** [s.lastIndexOf(c)]: the index of the last occurrence of the character,
    or [-1]. *)
Fixpoint lastIndexOf_from (c : ascii) (s : string) (i : Z) (found : Z) : Z :=
  match s with
  | EmptyString => found
  | String a s' =>
      lastIndexOf_from c s' (i + 1) (if decide (a = c) then i else found)
  end.

Definition lastIndexOf (c : ascii) (s : string) : Z := lastIndexOf_from c s 0 (-1).

Fixpoint string_drop (n : nat) (s : string) : string :=
  match n, s with
  | O, _ => s
  | S n', String _ s' => string_drop n' s'
  | S _, EmptyString => EmptyString
  end.

(** [s.substr(start)]: a negative start counts from the end of the string. *)
Definition substr (s : string) (start : Z) : string :=
  let len := Z.of_nat (String.length s) in
  let from := if decide (start < 0) then Z.max (len + start) 0 else start in
  string_drop (Z.to_nat from) s.

(** ** The language service host *)

(** [a || b] on a possibly missing number. *)
Definition js_or (a : option Z) (b : Z) : Z :=
  match a with
  | Some n => if decide (n = 0) then b else n
  | None => b
  end.

(** The truth value of a possibly missing boolean. *)
Definition truthy (b : option bool) : bool := default false b.

Section Host.
Variable libFileMap : gmap string string.

Definition getCompilationSettings : JS TypeScriptWorker CompilerOptions :=
  gets _compilerOptions.

Definition getScriptFileNames : JS TypeScriptWorker (list string) :=
  let* models := gets (λ this, MirrorModel.uri <$> _ctx this) in
  let* extra := gets (λ this, JsObject.keys (_extraLibs this)) in
  ret (models ++ extra)%list.

Fixpoint find_model (fileName : string) (models : list MirrorModel.t)
  : option MirrorModel.t :=
  match models with
  | [] => None
  | m :: rest =>
      if decide (MirrorModel.uri m = fileName) then Some m
      else find_model fileName rest
  end.

Definition _getModel (fileName : string)
  : JS TypeScriptWorker (option MirrorModel.t) :=
  let* models := gets _ctx in
  ret (find_model fileName models).

(** The [switch] on [options.target]. The case 99 has no final [return], so
    it falls through to the body of the default case, called [general]
    here; the cases 7 to 2 share that body with [default]. *)
Definition getDefaultLibFileName (options : CompilerOptions)
  : JS TypeScriptWorker string :=
  let* extraLibs := gets _extraLibs in
  let general : JS TypeScriptWorker string :=
    let eslib :=
      "lib.es" +:+ pretty (2013 + js_or (target options) 99) +:+ ".full.d.ts" in
    if js_in eslib libFileMap || JsObject.has extraLibs eslib
    then ret eslib
    else ret "lib.es6.d.ts" in
  match target options with
  | Some t =>
      if decide (t = 99) then
        let esnext := "lib.esnext.full.d.ts" in
        if js_in esnext libFileMap || JsObject.has extraLibs esnext
        then ret esnext
        else general
      else if decide (t = 1 ∨ t = 0) then ret "lib.d.ts"
      else general
  | None => general
  end.

Definition isDefaultLibFileName (fileName : string)
  : JS TypeScriptWorker bool :=
  let* options := gets _compilerOptions in
  let* name := getDefaultLibFileName options in
  ret (bool_decide (fileName = name)).

(** A builtin of the prototype has no [version] and no [content]: reading
    them gives [undefined], which [String] renders as ["undefined"]. *)
Definition getScriptVersion (fileName : string) : JS TypeScriptWorker string :=
  let* model := _getModel fileName in
  match model with
  | Some m => ret (pretty (MirrorModel.version m))
  | None =>
      let* isDefault := isDefaultLibFileName fileName in
      if isDefault then ret "1"
      else
        let* extraLibs := gets _extraLibs in
        if JsObject.has extraLibs fileName then
          match JsObject.read extraLibs fileName with
          | Some (JsObject.Own lib) => ret (pretty (ExtraLib.version lib))
          | Some (JsObject.Proto _) => ret "undefined"
          | None => throw (TypeError "Cannot read properties of undefined")
          end
        else ret ""
  end.

Definition _getScriptText (fileName : string)
  : JS TypeScriptWorker (option Text) :=
  let* model := _getModel fileName in
  let libizedFileName := "lib." +:+ fileName +:+ ".d.ts" in
  match model with
  | Some m => ret (Some (Str (MirrorModel.getValue m)))
  | None =>
      if js_in fileName libFileMap then ret (js_read libFileMap fileName)
      else if js_in libizedFileName libFileMap
      then ret (js_read libFileMap libizedFileName)
      else
        let* extraLibs := gets _extraLibs in
        if JsObject.has extraLibs fileName then
          match JsObject.read extraLibs fileName with
          | Some (JsObject.Own lib) => ret (Some (Str (ExtraLib.content lib)))
          | Some (JsObject.Proto _) => ret None
          | None => throw (TypeError "Cannot read properties of undefined")
          end
        else ret None
  end.

Definition getScriptText (fileName : string)
  : JS TypeScriptWorker (Promise (option Text)) :=
  let* text := _getScriptText fileName in
  ret (Resolved text).

Definition getScriptSnapshot (fileName : string)
  : JS TypeScriptWorker (option SnapshotObject) :=
  let* text := _getScriptText fileName in
  match text with
  | None => ret None
  | Some text => ret (Some (snapshot_object text))
  end.

Definition getScriptKind (fileName : string) : JS TypeScriptWorker ScriptKind :=
  let suffix := substr fileName (lastIndexOf "."%char fileName + 1) in
  if decide (suffix = "ts") then ret SK_TS
  else if decide (suffix = "tsx") then ret SK_TSX
  else if decide (suffix = "js") then ret SK_JS
  else if decide (suffix = "jsx") then ret SK_JSX
  else
    let* options := getCompilationSettings in
    ret (if truthy (allowJs options) then SK_JS else SK_TS).

Definition getCurrentDirectory : JS TypeScriptWorker string := ret "".

Definition getLibFiles : JS TypeScriptWorker (Promise (gmap string string)) :=
  ret (Resolved libFileMap).

Definition updateExtraLibs (extraLibs : JsObject.t ExtraLib.t)
  : JS TypeScriptWorker () :=
  modify (λ this, mkWorker (_ctx this) (_compilerOptions this) extraLibs).
End Host.

(** ** Diagnostics and the sanitizer *)

(** Diagnostics are mutable objects: the engine hands out references, and
    [clearFiles] writes through them. The object store maps a reference to
    the object it denotes; a reference outside the store stands for [null]
    or [undefined]. *)
Abbreviation loc := positive (only parsing).

Module Diagnostic.
(** [ts.Diagnostic] and [ts.DiagnosticRelatedInformation]. [file] is the
    back-reference to the parsed source file; [None] is [undefined]. *)
Record t : Type := mk {
  file : option loc;
  start : option Z;
  length : option Z;
  messageText : string;
  category : Z;
  code : Z;
  relatedInformation : option (list loc)
}.

(** [diag.file = v] on the object itself *)
Definition with_file (v : option loc) (d : t) : t :=
  mk v (start d) (length d) (messageText d) (category d) (code d)
     (relatedInformation d).

(** Everything but the back-reference. *)
Definition others (d : t)
  : option Z * option Z * string * Z * Z * option (list loc) :=
  (start d, length d, messageText d, category d, code d, relatedInformation d).
End Diagnostic.

Abbreviation Heap := (gmap loc Diagnostic.t) (only parsing).

(** [array.forEach(f)] *)
Fixpoint forEach {S A} (array : list A) (f : A → JS S ()) : JS S () :=
  match array with
  | [] => ret ()
  | x :: rest => let* _ := f x in forEach rest f
  end.

(** [o.file = v] *)
Definition set_file (o : loc) (v : option loc) : JS Heap () := λ h,
  match h !! o with
  | Some d => Normal ((), <[o := Diagnostic.with_file v d]> h)
  | None => Throw (TypeError "Cannot set properties of undefined")
  end.

(** [o.relatedInformation] *)
Definition get_relatedInformation (o : loc) : JS Heap (option (list loc)) := λ h,
  match h !! o with
  | Some d => Normal (Diagnostic.relatedInformation d, h)
  | None => Throw (TypeError "Cannot read properties of undefined")
  end.

(** The callback of the outer [forEach] of [clearFiles]. *)
Definition clearFiles_each (diag : loc) : JS Heap () :=
  let* _ := set_file diag None in
  let* related := get_relatedInformation diag in
  match related with
  | Some related => forEach related (λ diag2, set_file diag2 None)
  | None => ret ()
  end.

Definition clearFiles (diagnostics : list loc) : JS Heap (list loc) :=
  let* _ := forEach diagnostics clearFiles_each in
  ret diagnostics.

(** ** The request proxy: the diagnostics family *)

Section Proxy.
(** The analysis engine is a collaborator: its own state is abstract, and
    so are its operations, which read the host, may allocate diagnostics
    in the object store, and may throw. *)
Context {LanguageService : Type}.

Record Realm : Type := mkRealm {
  this : TypeScriptWorker;
  _languageService : LanguageService;
  heap : Heap
}.

Variable ls_getSyntacticDiagnostics : string → JS Realm (list loc).
Variable ls_getSemanticDiagnostics : string → JS Realm (list loc).
Variable ls_getSuggestionDiagnostics : string → JS Realm (list loc).
Variable ls_getCompilerOptionsDiagnostics : JS Realm (list loc).

(** A computation on the object store, run inside the realm. *)
Definition on_heap {A} (m : JS Heap A) : JS Realm A := λ r,
  match m (heap r) with
  | Normal (a, h) => Normal (a, mkRealm (this r) (_languageService r) h)
  | Throw e => Throw e
  end.

Definition getSyntacticDiagnostics (fileName : string)
  : JS Realm (Promise (list loc)) :=
  let* diagnostics := ls_getSyntacticDiagnostics fileName in
  let* cleared := on_heap (clearFiles diagnostics) in
  ret (Resolved cleared).

Definition getSemanticDiagnostics (fileName : string)
  : JS Realm (Promise (list loc)) :=
  let* diagnostics := ls_getSemanticDiagnostics fileName in
  let* cleared := on_heap (clearFiles diagnostics) in
  ret (Resolved cleared).

Definition getSuggestionDiagnostics (fileName : string)
  : JS Realm (Promise (list loc)) :=
  let* diagnostics := ls_getSuggestionDiagnostics fileName in
  let* cleared := on_heap (clearFiles diagnostics) in
  ret (Resolved cleared).

Definition getCompilerOptionsDiagnostics (fileName : string)
  : JS Realm (Promise (list loc)) :=
  let* diagnostics := ls_getCompilerOptionsDiagnostics in
  let* cleared := on_heap (clearFiles diagnostics) in
  ret (Resolved cleared).
End Proxy.
Arguments Realm : clear implicits.

(** ** The factory *)

(** A worker class: the default one, or whatever a custom factory returns. *)
Inductive WorkerClass : Type :=
| TypeScriptWorkerClass
| CustomClass (name : string).

(** [self.customTSWorkerFactory], called as
    [workerFactoryFunc(TypeScriptWorker, ts, libFileMap)]. *)
Definition WorkerFactory : Type := WorkerClass → gmap string string → WorkerClass.

Record CreateData : Type := mkCreateData {
  compilerOptions : CompilerOptions;
  extraLibs : JsObject.t ExtraLib.t;
  customWorkerPath : option string
}.

(** The part of the worker's global scope that [create] touches: the
    well-known slot, the console, and the scripts executed so far. *)
Record WorkerGlobalScope : Type := mkScope {
  customTSWorkerFactory : option WorkerFactory;
  console : list string;
  executed : list string
}.

(** [new TSWorkerClass(ctx, createData)] *)
Inductive Instance : Type :=
| New (cls : WorkerClass) (ctx : list MirrorModel.t) (createData : CreateData).

(** The constructor of the default class. *)
Definition TypeScriptWorker_new (ctx : list MirrorModel.t) (createData : CreateData)
  : TypeScriptWorker :=
  mkWorker ctx (compilerOptions createData) (extraLibs createData).

(** The truth value of a possibly missing string. *)
Definition truthy_string (s : option string) : bool :=
  match s with
  | Some s => bool_decide (s ≠ "")
  | None => false
  end.

Definition console_warn (message : string) : JS WorkerGlobalScope () :=
  modify (λ self,
    mkScope (customTSWorkerFactory self) (console self ++ [message]) (executed self)).

Section Bootstrap.
Variable libFileMap : gmap string string.

(** [importScripts] is [None] where [typeof importScripts === 'undefined'];
    otherwise it gives the effect of executing the script at a path on the
    global scope, which may also throw. *)
Variable importScripts : option (string → JS WorkerGlobalScope ()).

Definition run_importScripts (run : string → JS WorkerGlobalScope ())
    (path : string) : JS WorkerGlobalScope () :=
  let* _ := run path in
  modify (λ self,
    mkScope (customTSWorkerFactory self) (console self) (executed self ++ [path])).

Definition create (ctx : list MirrorModel.t) (createData : CreateData)
  : JS WorkerGlobalScope Instance :=
  let* TSWorkerClass :=
    if truthy_string (customWorkerPath createData) then
      let path := default "" (customWorkerPath createData) in
      match importScripts with
      | None =>
          let* _ := console_warn
            "Monaco is not using webworkers for background tasks, and that is needed to support the customWorkerPath flag" in
          ret TypeScriptWorkerClass
      | Some run =>
          let* _ := run_importScripts run path in
          let* workerFactoryFunc := gets customTSWorkerFactory in
          match workerFactoryFunc with
          | None =>
              throw (Error ("The script at " +:+ path +:+
                            " does not add customTSWorkerFactory to self"))
          | Some factory => ret (factory TypeScriptWorkerClass libFileMap)
          end
      end
    else ret TypeScriptWorkerClass in
  ret (New TSWorkerClass ctx createData).
End Bootstrap.

(** ** The vocabulary of the specification *)

(** The first open document whose URI is the file name. *)
Definition open_document (this : TypeScriptWorker) (fileName : string)
  : option MirrorModel.t :=
  snd <$> list_find (λ m, MirrorModel.uri m = fileName) (_ctx this).

(** A name is present in the Lib Registry or in the Extra-Lib Registry. *)
Definition registered (libFileMap : gmap string string) (this : TypeScriptWorker)
    (name : string) : Prop :=
  name ∈ dom libFileMap ∨ name ∈ JsObject.keys (_extraLibs this).

#[export] Instance registered_dec libFileMap this name
  : Decision (registered libFileMap this name).
Proof. unfold registered. apply _. Defined.

(** ["lib.es" + (2013 + tier) + ".full.d.ts"] *)
Definition year_qualified (tier : Z) : string :=
  "lib.es" +:+ pretty (2013 + tier) +:+ ".full.d.ts".

(** The default library of a target tier, in the words of the
    specification. *)
Definition default_lib_of_tier (libFileMap : gmap string string)
    (this : TypeScriptWorker) (tier : Z) : string :=
  if decide (tier = 0 ∨ tier = 1) then "lib.d.ts"
  else if decide (tier = 99 ∧ registered libFileMap this "lib.esnext.full.d.ts")
  then "lib.esnext.full.d.ts"
  else if decide (registered libFileMap this (year_qualified tier))
  then year_qualified tier
  else "lib.es6.d.ts".

(** The text of a file, first match wins: the open document, the Lib Registry
    under the exact name, the Lib Registry under the shorthand name, the
    Extra-Lib Registry. *)
Definition resolved_text (libFileMap : gmap string string)
    (this : TypeScriptWorker) (fileName : string) : option string :=
  (MirrorModel.getValue <$> open_document this fileName)
  ∪ (libFileMap !! fileName)
  ∪ (libFileMap !! ("lib." +:+ fileName +:+ ".d.ts"))
  ∪ (ExtraLib.content <$> JsObject.get (_extraLibs this) fileName).

(** The version of a file, given the name of the default library. *)
Definition resolved_version (this : TypeScriptWorker) (defaultLib : string)
    (fileName : string) : string :=
  match open_document this fileName with
  | Some m => pretty (MirrorModel.version m)
  | None =>
      if decide (fileName = defaultLib) then "1"
      else match JsObject.get (_extraLibs this) fileName with
           | Some lib => pretty (ExtraLib.version lib)
           | None => ""
           end
  end.

(** The URIs of the open documents, in the order of the directory. *)
Definition uris (this : TypeScriptWorker) : list string :=
  MirrorModel.uri <$> _ctx this.

(** The extension of a file name: what follows its last dot, if it has a
    dot at all. *)
Fixpoint extension (fileName : string) : option string :=
  match fileName with
  | EmptyString => None
  | String a rest =>
      match extension rest with
      | Some e => Some e
      | None => if decide (a = "."%char) then Some rest else None
      end
  end.

(** The script kind of a file name, in the words of the specification. *)
Definition kind_of_extension (options : CompilerOptions) (fileName : string)
  : ScriptKind :=
  let fallback := if truthy (allowJs options) then SK_JS else SK_TS in
  match extension fileName with
  | Some e =>
      if decide (e = "ts") then SK_TS
      else if decide (e = "tsx") then SK_TSX
      else if decide (e = "js") then SK_JS
      else if decide (e = "jsx") then SK_JSX
      else fallback
  | None => fallback
  end.

(** The error that [create] throws for a script that registers nothing. *)
Definition missing_factory_error (path : string) : Exn :=
  Error ("The script at " +:+ path +:+
         " does not add customTSWorkerFactory to self").

(** The related diagnostics of an object of the store. *)
Definition related (h : Heap) (o : loc) : list loc :=
  match h !! o with
  | Some d => default [] (Diagnostic.relatedInformation d)
  | None => []
  end.

(** The references a call of the sanitizer goes through: each diagnostic of
    the list, followed by the entries of its related list. *)
Definition reached (h : Heap) (diagnostics : list loc) : list loc :=
  diagnostics ≫= λ o, o :: related h o.

(** Every reference denotes an object. *)
Definition allocated (h : Heap) (refs : list loc) : Prop :=
  Forall (λ o, is_Some (h !! o)) refs.

(** The object behind a reference has no back-reference. *)
Definition file_cleared (h : Heap) (o : loc) : Prop :=
  ∃ d, h !! o = Some d ∧ Diagnostic.file d = None.

(** The store after the back-reference was cleared through each reference
    of a list, in order. *)
Definition clear_at (refs : list loc) (h : Heap) : Heap :=
  foldl (λ h o, alter (Diagnostic.with_file None) o h) h refs.

(** ** Sample states *)

Definition sample_diagnostic (file : option loc) (related : option (list loc))
  : Diagnostic.t :=
  Diagnostic.mk file (Some 4) (Some 2) "Cannot find name" 1 2304 related.

(** Two diagnostics of one file, the first with two related entries, and a
    third diagnostic that was cleared before and has an empty related
    list. *)
Definition sample_heap : Heap :=
  {[ 1%positive := sample_diagnostic (Some 10%positive) (Some [2; 3]%positive);
     2%positive := sample_diagnostic (Some 10%positive) None;
     3%positive := sample_diagnostic (Some 11%positive) None;
     4%positive := sample_diagnostic (Some 10%positive) None;
     5%positive := sample_diagnostic None (Some []) ]}.

Definition sample_diagnostics : list loc := [1; 4; 5]%positive.

(** A payload with a locator, a script that registers nothing, and a scope
    with an empty slot. *)
Definition sample_createData : CreateData :=
  mkCreateData (mkOptions (Some 99) None) [] (Some "custom.js").

Definition silent_script : string → JS WorkerGlobalScope () := λ _, ret ().

Definition empty_scope : WorkerGlobalScope := mkScope None [] [].

(** ** The rest of the host interface, and more vocabulary *)

(** [String.prototype.substring] and the closure that [getScriptSnapshot]
    returns. Indices count the units of the string; the operations move
    units around and never look at their values. *)
Fixpoint string_take (n : nat) (s : string) : string :=
  match n, s with
  | O, _ => EmptyString
  | S n', String a s' => String a (string_take n' s')
  | S _, EmptyString => EmptyString
  end.

(** An index argument, brought into the range of the string. *)
Definition clamp (len n : Z) : Z := Z.min (Z.max n 0) len.

(** [s.substring(start, end)]: both indices are clamped to the string, and
    swapped when they come in the wrong order. *)
Definition substring (s : string) (start finish : Z) : string :=
  let len := Z.of_nat (String.length s) in
  let from := Z.min (clamp len start) (clamp len finish) in
  let to := Z.max (clamp len start) (clamp len finish) in
  string_take (Z.to_nat (to - from)) (string_drop (Z.to_nat from) s).

(** [snapshot.getText(start, end)] *)
Definition getText (snapshot : ScriptSnapshot) (start finish : Z) : string :=
  substring (snapshot_text snapshot) start finish.

(** [snapshot.getLength()] *)
Definition getLength (snapshot : ScriptSnapshot) : Z :=
  Z.of_nat (String.length (snapshot_text snapshot)).

(** [snapshot.getChangeRange()]: always [undefined]. *)
Definition getChangeRange (snapshot : ScriptSnapshot) : option (Z * Z * Z) := None.

(** The name that [getDefaultLibFileName] answers, as a function of the
    options and of the two registries. *)
Definition default_lib_name (libFileMap : gmap string string)
    (options : CompilerOptions) (this : TypeScriptWorker) : string :=
  match target options with
  | Some t => default_lib_of_tier libFileMap this t
  | None =>
      if decide (registered libFileMap this (year_qualified 99))
      then year_qualified 99 else "lib.es6.d.ts"
  end.

(** What the host serves as the text of a file: as [resolved_text], but a
    name of the prototype that is neither an open document nor an own key
    of the built-in table finds the builtin there. *)
Definition served_text (libFileMap : gmap string string)
    (this : TypeScriptWorker) (fileName : string) : option Text :=
  match open_document this fileName with
  | Some m => Some (Str (MirrorModel.getValue m))
  | None =>
      match libFileMap !! fileName with
      | Some s => Some (Str s)
      | None =>
          if inherited fileName then Some (Builtin fileName)
          else Str <$> (libFileMap !! ("lib." +:+ fileName +:+ ".d.ts")
                        ∪ (ExtraLib.content <$>
                             JsObject.get (_extraLibs this) fileName))
      end
  end.

(** What the host serves as the version of a file: as [resolved_version],
    but a name of the prototype that nothing else claims finds the builtin
    in the extra-lib table. *)
Definition served_version (this : TypeScriptWorker) (defaultLib : string)
    (fileName : string) : string :=
  match open_document this fileName with
  | Some m => pretty (MirrorModel.version m)
  | None =>
      if decide (fileName = defaultLib) then "1"
      else match JsObject.get (_extraLibs this) fileName with
           | Some lib => pretty (ExtraLib.version lib)
           | None => if inherited fileName then "undefined" else ""
           end
  end.

(** The worker after [updateExtraLibs]. *)
Definition with_extraLibs (this : TypeScriptWorker)
    (extraLibs : JsObject.t ExtraLib.t) : TypeScriptWorker :=
  mkWorker (_ctx this) (_compilerOptions this) extraLibs.

(** What a diagnostics method of the proxy does with the outcome of the
    engine call behind it: a fault of the engine is the fault of the method;
    a list of diagnostics comes back as it is, in a resolved promise, with
    the back-references cleared in the store and the rest of the realm as
    the engine left it. *)
Definition sanitizes {LanguageService : Type}
    (engine : JS (Realm LanguageService) (list loc))
    (proxy : JS (Realm LanguageService) (Promise (list loc)))
    (realm : Realm LanguageService) : Prop :=
  match engine realm with
  | Throw e => proxy realm = Throw e
  | Normal (diagnostics, realm') =>
      allocated (heap realm') (reached (heap realm') diagnostics) →
      ∃ h',
        proxy realm
        = Normal (Resolved diagnostics,
                  mkRealm (this realm') (_languageService realm') h')
        ∧ Forall (file_cleared h') diagnostics
        ∧ Forall (λ o, Forall (file_cleared h') (related (heap realm') o))
                 diagnostics
  end.

(** An engine that finds the sample diagnostics in the store. *)
Definition sample_engine : JS (Realm ()) (list loc) := ret sample_diagnostics.

Definition sample_realm : Realm () :=
  mkRealm (mkWorker [] (mkOptions (Some 99) None) []) () sample_heap.

(** A worker with an open document, an extra lib, and the target ES2017. *)
Definition sample_worker : TypeScriptWorker :=
  mkWorker [MirrorModel.mk "file:///main.ts" 3 "let x = 1"]
           (mkOptions (Some 4) (Some false))
           [("file:///globals.d.ts", ExtraLib.mk "declare let y: number" 2)].

(** The built-in table of the samples. *)
Definition sample_libs : gmap string string :=
  {[ "lib.es2017.full.d.ts" := "interface Array<T> {}";
     "lib.es5.d.ts" := "interface Object {}" ]}.

(** A script that registers a factory, and the class the factory returns. *)
Definition sample_factory : WorkerFactory := λ _ _, CustomClass "MyWorker".

Definition registering_script : string → JS WorkerGlobalScope () := λ _,
  modify (λ self, mkScope (Some sample_factory) (console self) (executed self)).

(** * Properties *)

(** ** Dictionaries *)

Lemma option_union_None_l {A} (o : option A) : None ∪ o = o.
Proof. by destruct o. Qed.

Lemma option_union_eq_None {A} (o1 o2 : option A) :
  o1 ∪ o2 = None ↔ o1 = None ∧ o2 = None.
Proof. destruct o1, o2; split; (done || intros []; done). Qed.

Lemma not_inherited_l (rest : string) : inherited (String "l" rest) = false.
Proof.
  unfold inherited. apply bool_decide_eq_false. unfold Object_prototype.
  intros H. repeat (apply elem_of_cons in H as [H|H]; [discriminate|]).
  by apply elem_of_nil in H.
Qed.

Lemma js_in_own {V} (k : string) (m : gmap string V) :
  inherited k = false → js_in k m = bool_decide (is_Some (m !! k)).
Proof. unfold js_in. intros ->. apply orb_false_r. Qed.

Lemma js_in_dom {V} (k : string) (m : gmap string V) :
  inherited k = false → js_in k m = true ↔ k ∈ dom m.
Proof.
  intros H. rewrite (js_in_own k m H), bool_decide_eq_true, elem_of_dom. done.
Qed.

Lemma JsObject_has_keys {V} (o : JsObject.t V) (k : string) :
  inherited k = false → JsObject.has o k = true ↔ k ∈ JsObject.keys o.
Proof.
  unfold JsObject.has. intros ->. rewrite orb_false_r. apply bool_decide_eq_true.
Qed.

Lemma JsObject_get_None {V} (o : JsObject.t V) (k : string) :
  JsObject.get o k = None ↔ k ∉ JsObject.keys o.
Proof.
  unfold JsObject.get, JsObject.keys. by rewrite <- not_elem_of_list_to_map.
Qed.

Lemma JsObject_get_Some {V} (o : JsObject.t V) (k : string) :
  is_Some (JsObject.get o k) ↔ k ∈ JsObject.keys o.
Proof.
  rewrite <- not_eq_None_Some, JsObject_get_None.
  split; [apply dec_stable | tauto].
Qed.

(** ** The host never throws and never writes *)

Lemma find_model_open_document (this : TypeScriptWorker) (fileName : string) :
  find_model fileName (_ctx this) = open_document this fileName.
Proof.
  unfold open_document. induction (_ctx this) as [|m ms IH]; [done|].
  simpl. case_decide; [done|]. rewrite IH.
  destruct (list_find _ ms) as [[i x]|]; done.
Qed.

Lemma registered_spec libFileMap this name :
  inherited name = false →
  js_in name libFileMap || JsObject.has (_extraLibs this) name = true
  ↔ registered libFileMap this name.
Proof.
  intros H. unfold registered.
  rewrite orb_true_iff, (js_in_dom _ _ H), (JsObject_has_keys _ _ H). done.
Qed.

Lemma if_registered {A} libFileMap this name (x y : A) :
  inherited name = false →
  (if js_in name libFileMap || JsObject.has (_extraLibs this) name then x else y)
  = (if decide (registered libFileMap this name) then x else y).
Proof.
  intros H. destruct (js_in _ _ || _) eqn:E; case_decide as R; try done.
  - apply (registered_spec _ _ _ H) in E. done.
  - apply (registered_spec _ _ _ H) in R. congruence.
Qed.

Lemma js_or_nonzero (t d : Z) : t ≠ 0 → js_or (Some t) d = t.
Proof. intros. unfold js_or. by case_decide. Qed.

(** The switch on the target, tier by tier. *)
Lemma getDefaultLibFileName_tier
    (libFileMap : gmap string string) (t : Z) (js : option bool)
    (this : TypeScriptWorker) :
  getDefaultLibFileName libFileMap (mkOptions (Some t) js) this
  = Normal (default_lib_of_tier libFileMap this t, this).
Proof.
  unfold getDefaultLibFileName, default_lib_of_tier, year_qualified, js_or.
  unfold bind, gets, ret. cbn [target _extraLibs].
  rewrite !if_registered by apply not_inherited_l.
  repeat case_decide; subst; first [done | exfalso; intuition lia].
Qed.

(** C2. For a compiler-options record whose target is the tier [t],
    [getDefaultLibFileName] returns ["lib.d.ts"] for the tiers 0 and 1; for
    the tier 99 it returns ["lib.esnext.full.d.ts"] when that name is in the
    Lib Registry or in the Extra-Lib Registry; otherwise it returns the
    year-qualified name ["lib.es" + (2013 + t) + ".full.d.ts"] when that name
    is in either registry, and ["lib.es6.d.ts"] when it is not. *)
Theorem getDefaultLibFileName_by_tier
    (libFileMap : gmap string string) (t : Z) (js : option bool)
    (this : TypeScriptWorker) :
  getDefaultLibFileName libFileMap (mkOptions (Some t) js) this
  = Normal (default_lib_of_tier libFileMap this t, this).
Proof. apply getDefaultLibFileName_tier. Qed.

(** A record without a target is resolved like the tier 99, except that the
    ["lib.esnext.full.d.ts"] name is not tried. *)
Lemma getDefaultLibFileName_no_target
    (libFileMap : gmap string string) (js : option bool) (this : TypeScriptWorker) :
  getDefaultLibFileName libFileMap (mkOptions None js) this
  = Normal (if decide (registered libFileMap this (year_qualified 99))
            then year_qualified 99 else "lib.es6.d.ts", this).
Proof.
  unfold getDefaultLibFileName, year_qualified, bind, gets, ret. simpl.
  rewrite if_registered by apply not_inherited_l. by case_decide.
Qed.

(** The name is a function of the options and of the two registries, and
    the call completes normally in the state it started from. *)
Lemma getDefaultLibFileName_total
    (libFileMap : gmap string string) (options : CompilerOptions)
    (this : TypeScriptWorker) :
  ∃ name, getDefaultLibFileName libFileMap options this = Normal (name, this).
Proof.
  destruct options as [[t|] js].
  - eexists. apply getDefaultLibFileName_tier.
  - eexists. apply getDefaultLibFileName_no_target.
Qed.

(** C9. [getDefaultLibFileName] completes normally and leaves the adapter
    state as it found it; a second call with the same options in that state
    returns the same name; and the name depends on the state only through
    the Extra-Lib Registry. *)
Theorem getDefaultLibFileName_deterministic
    (libFileMap : gmap string string) (options : CompilerOptions)
    (this : TypeScriptWorker) :
  ∃ name,
    getDefaultLibFileName libFileMap options this = Normal (name, this)
    ∧ (let* first := getDefaultLibFileName libFileMap options in
       let* second := getDefaultLibFileName libFileMap options in
       ret (first, second)) this
      = Normal ((name, name), this)
    ∧ (∀ ctx current,
         let other := mkWorker ctx current (_extraLibs this) in
         getDefaultLibFileName libFileMap options other = Normal (name, other)).
Proof.
  destruct (getDefaultLibFileName_total libFileMap options this) as [name H].
  exists name. split; [done|]. split.
  - unfold bind, ret. by rewrite !H.
  - intros ctx current other. revert H.
    unfold getDefaultLibFileName, bind, gets, ret. simpl.
    repeat (case_match; try done); congruence.
Qed.

(** The name of the default library is never a name of the prototype. *)
Lemma default_lib_not_inherited
    (libFileMap : gmap string string) (options : CompilerOptions)
    (this : TypeScriptWorker) (name : string) :
  getDefaultLibFileName libFileMap options this = Normal (name, this) →
  inherited name = false.
Proof.
  destruct options as [[t|] js].
  - rewrite getDefaultLibFileName_tier. intros [= <-].
    unfold default_lib_of_tier, year_qualified.
    repeat case_decide; apply not_inherited_l.
  - rewrite getDefaultLibFileName_no_target. intros [= <-].
    unfold year_qualified. case_decide; apply not_inherited_l.
Qed.

(** [getScriptVersion], given what [getDefaultLibFileName] answers. *)
Lemma getScriptVersion_versions
    (libFileMap : gmap string string) (fileName : string)
    (this : TypeScriptWorker) :
  ∀ defaultLib,
    getDefaultLibFileName libFileMap (_compilerOptions this) this
    = Normal (defaultLib, this) →
    getScriptVersion libFileMap fileName this
    = Normal (served_version this defaultLib fileName, this).
Proof.
  intros name H.
  unfold getScriptVersion, served_version, _getModel, isDefaultLibFileName.
  unfold bind, gets, ret. simpl. rewrite find_model_open_document.
  destruct (open_document this fileName) as [m|]; [done|].
  rewrite H. case_bool_decide; [by rewrite decide_True|].
  rewrite decide_False by done.
  unfold JsObject.has, JsObject.read.
  destruct (JsObject.get (_extraLibs this) fileName) as [lib|] eqn:Hget.
  - rewrite bool_decide_true; [done|].
    apply JsObject_get_Some. by rewrite Hget.
  - rewrite bool_decide_false by (by apply JsObject_get_None).
    simpl. by destruct (inherited fileName).
Qed.

(** Where no name of the prototype is involved, the served version is the
    one the specification describes. *)
Lemma served_version_plain (this : TypeScriptWorker) (defaultLib : string)
    (fileName : string) :
  inherited fileName = false →
  served_version this defaultLib fileName
  = resolved_version this defaultLib fileName.
Proof. unfold served_version, resolved_version. by intros ->. Qed.

(** C3, the failing case. A name that plain objects inherit, such as
    ["constructor"], that is no open document and no extra lib: the
    specification gives it the empty string, as it is not the default
    library either; the code finds the name in the extra-lib table through
    the prototype, reads the [version] of the builtin it gets, and answers
    ["undefined"]. *)
Theorem getScriptVersion_inherited_name
    (libFileMap : gmap string string) (fileName : string)
    (this : TypeScriptWorker) :
  inherited fileName = true →
  fileName ∉ uris this →
  fileName ∉ JsObject.keys (_extraLibs this) →
  ∃ defaultLib,
    getDefaultLibFileName libFileMap (_compilerOptions this) this
    = Normal (defaultLib, this)
    ∧ resolved_version this defaultLib fileName = ""
    ∧ getScriptVersion libFileMap fileName this = Normal ("undefined", this).
Proof.
  intros Hin Hdoc Hkey.
  destruct (getDefaultLibFileName_total libFileMap (_compilerOptions this) this)
    as [name H].
  exists name. split; [done|].
  assert (fileName ≠ name) as Hne.
  { intros ->. apply default_lib_not_inherited in H. congruence. }
  assert (open_document this fileName = None) as Hopen.
  { unfold open_document. apply fmap_None, list_find_None, Forall_forall.
    intros m Hm Hu. apply Hdoc. unfold uris. apply list_elem_of_fmap.
    by exists m. }
  apply JsObject_get_None in Hkey.
  rewrite (getScriptVersion_versions _ _ _ _ H).
  unfold resolved_version, served_version.
  rewrite Hopen, !(decide_False (P := fileName = name)) by done.
  by rewrite Hkey, Hin.
Qed.

(** The code at ["constructor"]. *)
Lemma getScriptVersion_inherited_name_sample :
  ∃ defaultLib,
    getDefaultLibFileName sample_libs (_compilerOptions sample_worker)
      sample_worker
    = Normal (defaultLib, sample_worker)
    ∧ resolved_version sample_worker defaultLib "constructor" = ""
    ∧ getScriptVersion sample_libs "constructor" sample_worker
      = Normal ("undefined", sample_worker).
Proof.
  apply (getScriptVersion_inherited_name sample_libs "constructor" sample_worker);
    [ reflexivity
    | apply (bool_decide_unpack _); vm_compute; exact I
    | apply (bool_decide_unpack _); vm_compute; exact I ].
Defined.

(** The internal resolution, which [getScriptText] and [getScriptSnapshot]
    share. *)
Lemma internal_text_resolution
    (libFileMap : gmap string string) (fileName : string)
    (this : TypeScriptWorker) :
  _getScriptText libFileMap fileName this
  = Normal (served_text libFileMap this fileName, this).
Proof.
  unfold _getScriptText, served_text, _getModel, bind, gets, ret. simpl.
  rewrite find_model_open_document.
  destruct (open_document this fileName) as [m|]; [done|].
  unfold js_in at 1, js_read at 1.
  destruct (libFileMap !! fileName) as [s|] eqn:Hexact.
  { rewrite bool_decide_true by (by eexists). done. }
  rewrite bool_decide_false by (by intros [? [=]]). simpl.
  destruct (inherited fileName) eqn:Hin; [done|].
  rewrite (js_in_own ("lib." +:+ fileName +:+ ".d.ts") libFileMap)
    by apply not_inherited_l.
  unfold js_read.
  destruct (libFileMap !! (_ +:+ _)) as [x|] eqn:Hshort.
  { rewrite bool_decide_true by (by eexists). by rewrite union_Some_l. }
  rewrite bool_decide_false by (by intros [? [=]]).
  rewrite option_union_None_l.
  unfold JsObject.has, JsObject.read. rewrite Hin, orb_false_r.
  destruct (JsObject.get (_extraLibs this) fileName) as [lib|] eqn:Hget.
  - rewrite bool_decide_true; [done|].
    apply JsObject_get_Some. by rewrite Hget.
  - rewrite bool_decide_false by (by apply JsObject_get_None). done.
Qed.

(** Where no name of the prototype is involved, the served text is the one
    the specification describes. *)
Lemma served_text_plain
    (libFileMap : gmap string string) (this : TypeScriptWorker)
    (fileName : string) :
  inherited fileName = false →
  served_text libFileMap this fileName
  = Str <$> resolved_text libFileMap this fileName.
Proof.
  intros Hin. unfold served_text, resolved_text. rewrite Hin.
  destruct (open_document this fileName) as [m|]; simpl.
  { by rewrite !union_Some_l. }
  rewrite option_union_None_l.
  destruct (libFileMap !! fileName) as [s|]; simpl.
  { by rewrite !union_Some_l. }
  by rewrite option_union_None_l.
Qed.

(** On every name that plain objects do not inherit, the three operations
    resolve as the specification says: the open document, the Lib Registry
    under the exact name, then under the shorthand, the Extra-Lib Registry,
    and [undefined] when there is none of the four. *)
Lemma text_resolution_of_plain_names
    (libFileMap : gmap string string) (fileName : string)
    (this : TypeScriptWorker) :
  inherited fileName = false →
  _getScriptText libFileMap fileName this
  = Normal (Str <$> resolved_text libFileMap this fileName, this)
  ∧ getScriptText libFileMap fileName this
    = Normal (Resolved (Str <$> resolved_text libFileMap this fileName), this)
  ∧ getScriptSnapshot libFileMap fileName this
    = Normal (TextSnapshot ∘ mkSnapshot <$> resolved_text libFileMap this fileName,
              this)
  ∧ (resolved_text libFileMap this fileName = None
     ↔ open_document this fileName = None
       ∧ libFileMap !! fileName = None
       ∧ libFileMap !! ("lib." +:+ fileName +:+ ".d.ts") = None
       ∧ JsObject.get (_extraLibs this) fileName = None).
Proof.
  intros Hin.
  pose proof (internal_text_resolution libFileMap fileName this) as H.
  rewrite (served_text_plain _ _ _ Hin) in H.
  split; [done|]. split; [|split].
  - unfold getScriptText, bind, ret. by rewrite H.
  - unfold getScriptSnapshot, bind, ret. rewrite H.
    by destruct (resolved_text libFileMap this fileName).
  - unfold resolved_text. rewrite !option_union_eq_None, !fmap_None. tauto.
Qed.

(** C1, the failing case. A name that plain objects inherit, such as
    ["constructor"], that is no open document and no own key of the
    built-in table: whatever the four sources of the specification hold,
    their answer is a string or [undefined]; the code finds the name in the
    built-in table through the prototype and resolves to the builtin it
    reads there, and [getScriptSnapshot] wraps that builtin. *)
Theorem getScriptText_inherited_name
    (libFileMap : gmap string string) (fileName : string)
    (this : TypeScriptWorker) :
  inherited fileName = true →
  fileName ∉ uris this →
  libFileMap !! fileName = None →
  getScriptText libFileMap fileName this
  = Normal (Resolved (Some (Builtin fileName)), this)
  ∧ getScriptSnapshot libFileMap fileName this
    = Normal (Some (BuiltinSnapshot fileName), this)
  ∧ Some (Builtin fileName) ≠ Str <$> resolved_text libFileMap this fileName.
Proof.
  intros Hin Hdoc Hexact.
  assert (open_document this fileName = None) as Hopen.
  { unfold open_document. apply fmap_None, list_find_None, Forall_forall.
    intros m Hm Hu. apply Hdoc. unfold uris. apply list_elem_of_fmap.
    by exists m. }
  pose proof (internal_text_resolution libFileMap fileName this) as H.
  unfold served_text in H. rewrite Hopen, Hexact, Hin in H.
  split; [|split].
  - unfold getScriptText, bind, ret. by rewrite H.
  - unfold getScriptSnapshot, bind, ret. by rewrite H.
  - by destruct (resolved_text libFileMap this fileName).
Qed.

(** The code at ["constructor"]. *)
Lemma getScriptText_inherited_name_sample :
  getScriptText sample_libs "constructor" sample_worker
  = Normal (Resolved (Some (Builtin "constructor")), sample_worker)
  ∧ getScriptSnapshot sample_libs "constructor" sample_worker
    = Normal (Some (BuiltinSnapshot "constructor"), sample_worker)
  ∧ Some (Builtin "constructor")
    ≠ Str <$> resolved_text sample_libs sample_worker "constructor".
Proof.
  apply (getScriptText_inherited_name sample_libs "constructor" sample_worker);
    [ reflexivity
    | apply (bool_decide_unpack _); vm_compute; exact I
    | reflexivity ].
Defined.

(** ** The file set *)

Lemma getScriptFileNames_eq (this : TypeScriptWorker) :
  getScriptFileNames this
  = Normal ((uris this ++ JsObject.keys (_extraLibs this))%list, this).
Proof. reflexivity. Qed.

Lemma NoDup_uris_keys (us ks : list string) :
  NoDup (us ++ ks)%list ↔ NoDup us ∧ NoDup ks ∧ ∀ f, f ∈ us → f ∉ ks.
Proof. rewrite NoDup_app. tauto. Qed.

(** C4, as amended. [getScriptFileNames] returns the URIs of the open
    documents, in the order of the directory, followed by the keys of the
    extra-lib table, in its enumeration order, both read at the time of the
    call. Nothing is removed: a name is listed if and only if it is one of
    the URIs or one of the keys, and the list is free of duplicates exactly
    when the URIs are pairwise distinct, the keys are pairwise distinct, and
    no URI is also a key. *)
Theorem getScriptFileNames_concat (this : TypeScriptWorker) :
  ∃ names,
    getScriptFileNames this = Normal (names, this)
    ∧ names = (uris this ++ JsObject.keys (_extraLibs this))%list
    ∧ (∀ f, f ∈ names ↔ f ∈ uris this ∨ f ∈ JsObject.keys (_extraLibs this))
    ∧ (NoDup names
       ↔ NoDup (uris this) ∧ JsObject.wf (_extraLibs this)
         ∧ ∀ f, f ∈ uris this → f ∉ JsObject.keys (_extraLibs this))
    ∧ (∀ extra,
         (let* _ := updateExtraLibs extra in getScriptFileNames) this
         = Normal ((uris this ++ JsObject.keys extra)%list,
                   mkWorker (_ctx this) (_compilerOptions this) extra)).
Proof.
  eexists. split; [apply getScriptFileNames_eq|]. split; [done|].
  split; [intros f; apply elem_of_app|].
  split; [apply NoDup_uris_keys|]. done.
Qed.

(** C4, as stated, fails: a document whose URI is also the key of an extra
    lib is listed twice, although the URIs are distinct and the table has
    each key once. *)
Lemma getScriptFileNames_lists_twice :
  let this :=
    mkWorker [MirrorModel.mk "file:///main.ts" 1 "let x = 1"]
             (mkOptions (Some 99) None)
             [("file:///main.ts", ExtraLib.mk "declare let x: number" 1)] in
  NoDup (uris this) ∧ JsObject.wf (_extraLibs this)
  ∧ getScriptFileNames this
    = Normal (["file:///main.ts"; "file:///main.ts"], this)
  ∧ ¬ NoDup ["file:///main.ts"; "file:///main.ts"].
Proof.
  simpl. split; [apply NoDup_singleton|]. split; [apply NoDup_singleton|].
  split; [reflexivity|]. rewrite NoDup_cons. intros [H _]. apply H. left.
Qed.

(** ** Script kinds *)

Lemma lastIndexOf_extension (s : string) (i found : Z) :
  match extension s with
  | None => lastIndexOf_from "." s i found = found
  | Some e =>
      ∃ k : nat, lastIndexOf_from "." s i found = i + Z.of_nat k
                 ∧ string_drop (S k) s = e
  end.
Proof.
  revert i found. induction s as [|a rest IH]; intros i found; simpl; [done|].
  specialize (IH (i + 1) (if decide (a = "."%char) then i else found)).
  destruct (extension rest) as [e|].
  - destruct IH as (k & -> & Hk). exists (S k). split; [lia|done].
  - rewrite IH. case_decide; [|done]. exists 0%nat. split; [lia|done].
Qed.

(** What the code calls the suffix is the extension when the name has a dot,
    and the whole name when it has none. *)
Lemma suffix_extension (fileName : string) :
  substr fileName (lastIndexOf "." fileName + 1)
  = default fileName (extension fileName).
Proof.
  unfold lastIndexOf, substr.
  pose proof (lastIndexOf_extension fileName 0 (-1)) as H.
  destruct (extension fileName) as [e|]; simpl.
  - destruct H as (k & -> & Hk). rewrite decide_False by lia.
    replace (Z.to_nat (0 + Z.of_nat k + 1)) with (S k) by lia. done.
  - rewrite H. done.
Qed.

(** On every name with a dot, and on every name without a dot other than the
    four bare words, the code classifies as the specification says. *)
Lemma getScriptKind_by_extension (fileName : string) (this : TypeScriptWorker) :
  is_Some (extension fileName) ∨ fileName ∉ ["ts"; "tsx"; "js"; "jsx"] →
  getScriptKind fileName this
  = Normal (kind_of_extension (_compilerOptions this) fileName, this).
Proof.
  intros H. unfold getScriptKind, kind_of_extension. rewrite suffix_extension.
  destruct (extension fileName) as [e|]; simpl.
  - repeat case_decide; done.
  - destruct H as [[? [=]]|H].
    repeat (case_decide; [exfalso; apply H; subst; repeat constructor|]). done.
Qed.

(** C7, the failing case. A file named ["js"] has no extension, so with
    [allowJs] off the specification gives it the kind TS; the code takes the
    whole name for the suffix and answers JS. *)
Theorem getScriptKind_bare_js
    (ctx : list MirrorModel.t) (t : option Z)
    (extra : JsObject.t ExtraLib.t) :
  let this := mkWorker ctx (mkOptions t (Some false)) extra in
  extension "js" = None
  ∧ kind_of_extension (_compilerOptions this) "js" = SK_TS
  ∧ getScriptKind "js" this = Normal (SK_JS, this).
Proof. done. Qed.

(** ** The factory *)

(** With a locator and [importScripts] at hand: the script is executed, and
    the slot decides. *)
Lemma create_custom
    (libFileMap : gmap string string) (run : string → JS WorkerGlobalScope ())
    (ctx : list MirrorModel.t) (createData : CreateData) (path : string)
    (self self' : WorkerGlobalScope) :
  customWorkerPath createData = Some path → path ≠ "" →
  run path self = Normal ((), self') →
  create libFileMap (Some run) ctx createData self
  = match customTSWorkerFactory self' with
    | None => Throw (missing_factory_error path)
    | Some factory =>
        Normal (New (factory TypeScriptWorkerClass libFileMap) ctx createData,
                mkScope (Some factory) (console self')
                        (executed self' ++ [path]))
    end.
Proof.
  intros Hpath Hne Hrun. unfold create, run_importScripts, bind, gets, modify, ret.
  rewrite Hpath. simpl. rewrite bool_decide_true by done. rewrite Hrun. simpl.
  destruct (customTSWorkerFactory self'); done.
Qed.

(** With a locator but without [importScripts]: a warning, and the default
    class. *)
Lemma create_without_importScripts
    (libFileMap : gmap string string) (ctx : list MirrorModel.t)
    (createData : CreateData) (path : string) (self : WorkerGlobalScope) :
  customWorkerPath createData = Some path → path ≠ "" →
  ∃ warning,
    create libFileMap None ctx createData self
    = Normal (New TypeScriptWorkerClass ctx createData,
              mkScope (customTSWorkerFactory self) (console self ++ [warning])
                      (executed self)).
Proof.
  intros Hpath Hne. eexists. unfold create, console_warn, bind, modify, ret.
  rewrite Hpath. simpl. rewrite bool_decide_true by done. done.
Qed.

(** Without a locator: the default class, whatever the scope offers. *)
Lemma create_default
    (libFileMap : gmap string string)
    (importScripts : option (string → JS WorkerGlobalScope ()))
    (ctx : list MirrorModel.t) (createData : CreateData)
    (self : WorkerGlobalScope) :
  customWorkerPath createData = None ∨ customWorkerPath createData = Some "" →
  create libFileMap importScripts ctx createData self
  = Normal (New TypeScriptWorkerClass ctx createData, self).
Proof. intros [H|H]; unfold create, bind, ret; rewrite H; done. Qed.

(** C8, as amended. For a payload whose [customWorkerPath] is a non-empty
    string, in a scope that provides [importScripts]: [create] executes the
    script, and if the script completes and leaves [customTSWorkerFactory]
    unpopulated, [create] throws; if the slot is populated, the class that
    the registered factory returns is constructed. In a scope without
    [importScripts] the script is not executed: [create] logs a warning and
    constructs the default class. With no locator (absent or empty) the
    default class is constructed, nothing is executed and nothing is
    logged. *)
Theorem create_cases
    (libFileMap : gmap string string) (ctx : list MirrorModel.t)
    (createData : CreateData) (self : WorkerGlobalScope) :
  (∀ path run self',
      customWorkerPath createData = Some path → path ≠ "" →
      run path self = Normal ((), self') →
      (customTSWorkerFactory self' = None →
       create libFileMap (Some run) ctx createData self
       = Throw (missing_factory_error path))
      ∧ (∀ factory,
           customTSWorkerFactory self' = Some factory →
           create libFileMap (Some run) ctx createData self
           = Normal (New (factory TypeScriptWorkerClass libFileMap) ctx createData,
                     mkScope (Some factory) (console self')
                             (executed self' ++ [path]))))
  ∧ (∀ path,
       customWorkerPath createData = Some path → path ≠ "" →
       ∃ warning,
         create libFileMap None ctx createData self
         = Normal (New TypeScriptWorkerClass ctx createData,
                   mkScope (customTSWorkerFactory self)
                           (console self ++ [warning]) (executed self)))
  ∧ (customWorkerPath createData = None ∨ customWorkerPath createData = Some "" →
     ∀ importScripts,
       create libFileMap importScripts ctx createData self
       = Normal (New TypeScriptWorkerClass ctx createData, self)).
Proof.
  split; [|split].
  - intros path run self' Hpath Hne Hrun.
    rewrite (create_custom _ _ _ _ _ _ _ Hpath Hne Hrun).
    split; [by intros ->|]. by intros factory ->.
  - intros path. apply create_without_importScripts.
  - intros H importScripts. by apply create_default.
Qed.

(** C8, as stated, fails: with a locator in the payload and an empty slot,
    but no [importScripts] in the scope, nothing is executed and nothing is
    thrown; the default class is constructed. *)
Lemma create_locator_without_throw :
  let createData := mkCreateData (mkOptions (Some 99) None) [] (Some "custom.js") in
  let self := mkScope None [] [] in
  ∃ self',
    create ∅ None [] createData self
    = Normal (New TypeScriptWorkerClass [] createData, self')
    ∧ executed self' = []
    ∧ customTSWorkerFactory self' = None.
Proof. simpl. eexists. split; [reflexivity|]. done. Qed.

(** ** The request proxy *)

(** C10. [getCompilerOptionsDiagnostics] does not look at its file name:
    whatever the engine and the state, two file names give the same
    outcome. *)
Theorem getCompilerOptionsDiagnostics_ignores_fileName
    {LanguageService : Type}
    (ls_getCompilerOptionsDiagnostics : JS (Realm LanguageService) (list loc))
    (fileName1 fileName2 : string) (realm : Realm LanguageService) :
  getCompilerOptionsDiagnostics ls_getCompilerOptionsDiagnostics fileName1 realm
  = getCompilerOptionsDiagnostics ls_getCompilerOptionsDiagnostics fileName2 realm.
Proof. reflexivity. Qed.

(** ** The sanitizer *)

Lemma with_file_idemp (d : Diagnostic.t) :
  Diagnostic.with_file None (Diagnostic.with_file None d)
  = Diagnostic.with_file None d.
Proof. done. Qed.

Lemma with_file_others (v : option loc) (d : Diagnostic.t) :
  Diagnostic.others (Diagnostic.with_file v d) = Diagnostic.others d.
Proof. done. Qed.

Lemma lookup_clear_at (refs : list loc) (h : Heap) (o : loc) :
  clear_at refs h !! o
  = if decide (o ∈ refs) then Diagnostic.with_file None <$> h !! o else h !! o.
Proof.
  revert h. induction refs as [|x refs IH]; intros h.
  { rewrite decide_False by apply not_elem_of_nil. done. }
  unfold clear_at in *. simpl. rewrite IH, lookup_alter.
  destruct (decide (x = o)) as [->|Hne].
  - rewrite (decide_True (P := o ∈ o :: refs)) by apply list_elem_of_here.
    case_decide; [|done].
    rewrite <- option_fmap_compose. apply option_fmap_ext. done.
  - destruct (decide (o ∈ refs)) as [Hin|Hin].
    + rewrite decide_True by (by apply list_elem_of_further). done.
    + rewrite decide_False; [done|].
      rewrite elem_of_cons. intros [->|?]; done.
Qed.

Lemma clear_at_app (refs1 refs2 : list loc) (h : Heap) :
  clear_at (refs1 ++ refs2) h = clear_at refs2 (clear_at refs1 h).
Proof. apply foldl_app. Qed.

Lemma is_Some_clear_at (refs : list loc) (h : Heap) (o : loc) :
  is_Some (clear_at refs h !! o) ↔ is_Some (h !! o).
Proof. rewrite lookup_clear_at. case_decide; [apply fmap_is_Some|done]. Qed.

Lemma allocated_clear_at (refs refs' : list loc) (h : Heap) :
  allocated (clear_at refs h) refs' ↔ allocated h refs'.
Proof.
  unfold allocated. apply Forall_iff. intros o. apply is_Some_clear_at.
Qed.

Lemma related_clear_at (refs : list loc) (h : Heap) (o : loc) :
  related (clear_at refs h) o = related h o.
Proof.
  unfold related. rewrite lookup_clear_at.
  case_decide; destruct (h !! o); done.
Qed.

Lemma reached_cons (h : Heap) (o : loc) (diagnostics : list loc) :
  reached h (o :: diagnostics)
  = ((o :: related h o) ++ reached h diagnostics)%list.
Proof. unfold reached. by rewrite bind_cons. Qed.

Lemma reached_clear_at (refs diagnostics : list loc) (h : Heap) :
  reached (clear_at refs h) diagnostics = reached h diagnostics.
Proof.
  unfold reached. induction diagnostics as [|o ds IH]; [done|].
  by rewrite !bind_cons, related_clear_at, IH.
Qed.

Lemma clear_at_idemp (refs : list loc) (h : Heap) :
  clear_at refs (clear_at refs h) = clear_at refs h.
Proof.
  apply map_eq. intros o. rewrite !lookup_clear_at.
  case_decide; [|done]. rewrite <- option_fmap_compose.
  apply option_fmap_ext. done.
Qed.

Lemma forEach_cons {S A} (x : A) (rest : list A) (f : A → JS S ()) (s : S) :
  forEach (x :: rest) f s
  = match f x s with
    | Normal (_, s') => forEach rest f s'
    | Throw e => Throw e
    end.
Proof. reflexivity. Qed.

Lemma set_file_None_run (o : loc) (h : Heap) :
  is_Some (h !! o) → set_file o None h = Normal ((), clear_at [o] h).
Proof.
  intros [d Hd]. unfold set_file, clear_at. simpl.
  by rewrite alter_alt, Hd.
Qed.

Lemma forEach_set_file_run (refs : list loc) (h : Heap) :
  allocated h refs →
  forEach refs (λ o, set_file o None) h = Normal ((), clear_at refs h).
Proof.
  revert h. induction refs as [|o refs IH]; intros h Hall; [done|].
  apply Forall_cons in Hall as [Ho Hall].
  rewrite forEach_cons, (set_file_None_run o h Ho).
  rewrite IH by (by apply allocated_clear_at). done.
Qed.

(** One round of the outer loop. *)
Lemma clearFiles_each_run (o : loc) (h : Heap) :
  allocated h (o :: related h o) →
  clearFiles_each o h = Normal ((), clear_at (o :: related h o) h).
Proof.
  intros Hall. apply Forall_cons in Hall as [Ho Hall].
  unfold clearFiles_each, bind.
  rewrite (set_file_None_run o h Ho).
  unfold get_relatedInformation.
  change (o :: related h o) with ([o] ++ related h o)%list.
  rewrite clear_at_app.
  assert (related (clear_at [o] h) o = related h o) as Hrel
    by apply related_clear_at.
  apply (allocated_clear_at [o]) in Hall. revert Hall. rewrite <- Hrel.
  unfold related. destruct (clear_at [o] h !! o) as [d|] eqn:Hd.
  - destruct (Diagnostic.relatedInformation d) as [rel|]; simpl; [|done].
    apply forEach_set_file_run.
  - assert (is_Some (clear_at [o] h !! o)) as Ho' by (by apply is_Some_clear_at).
    rewrite Hd in Ho'. by destruct Ho'.
Qed.

Lemma clearFiles_loop_run (diagnostics : list loc) (h : Heap) :
  allocated h (reached h diagnostics) →
  forEach diagnostics clearFiles_each h
  = Normal ((), clear_at (reached h diagnostics) h).
Proof.
  revert h. induction diagnostics as [|o ds IH]; intros h Hall; [done|].
  rewrite reached_cons in Hall. apply Forall_app in Hall as [Ho Hds].
  rewrite forEach_cons, (clearFiles_each_run o h Ho).
  rewrite IH; rewrite reached_clear_at.
  - by rewrite reached_cons, clear_at_app.
  - by apply allocated_clear_at.
Qed.

(** What a call of the sanitizer does to the store. *)
Lemma clearFiles_run (diagnostics : list loc) (h : Heap) :
  allocated h (reached h diagnostics) →
  clearFiles diagnostics h
  = Normal (diagnostics, clear_at (reached h diagnostics) h).
Proof.
  intros Hall. unfold clearFiles, bind.
  rewrite (clearFiles_loop_run diagnostics h Hall). done.
Qed.

Lemma elem_of_reached (h : Heap) (diagnostics : list loc) (o : loc) :
  o ∈ reached h diagnostics
  ↔ ∃ d, d ∈ diagnostics ∧ (o = d ∨ o ∈ related h d).
Proof.
  unfold reached. rewrite list_elem_of_bind.
  split; intros (d & H1 & H2); exists d.
  - apply elem_of_cons in H1. tauto.
  - split; [|done]. apply elem_of_cons. tauto.
Qed.

Lemma file_cleared_clear_at (refs : list loc) (h : Heap) (o : loc) :
  o ∈ refs → is_Some (h !! o) → file_cleared (clear_at refs h) o.
Proof.
  intros Hin [d Hd]. exists (Diagnostic.with_file None d).
  rewrite lookup_clear_at, decide_True, Hd by done. done.
Qed.

Lemma others_clear_at (refs : list loc) (h : Heap) (o : loc) :
  Diagnostic.others <$> clear_at refs h !! o = Diagnostic.others <$> h !! o.
Proof.
  rewrite lookup_clear_at. case_decide; [|done].
  rewrite <- option_fmap_compose. apply option_fmap_ext. done.
Qed.

(** C5. On a list of diagnostics whose objects, and the entries of whose
    related lists, are all there, [clearFiles] completes normally (also
    where the related list is empty or absent) and returns the list it was
    given; sanitizing that result again changes nothing more; and afterwards
    the [file] field is cleared on every diagnostic of the list and on every
    entry of the related list that the diagnostic had when the call began. *)
Theorem clearFiles_idempotent_and_clears (diagnostics : list loc) (h : Heap) :
  allocated h (reached h diagnostics) →
  ∃ h',
    clearFiles diagnostics h = Normal (diagnostics, h')
    ∧ (let* once := clearFiles diagnostics in clearFiles once) h
      = Normal (diagnostics, h')
    ∧ Forall (file_cleared h') diagnostics
    ∧ Forall (λ o, Forall (file_cleared h') (related h o)) diagnostics.
Proof.
  intros Hall. exists (clear_at (reached h diagnostics) h).
  pose proof (clearFiles_run diagnostics h Hall) as Hrun.
  split; [done|]. split.
  - unfold bind. rewrite Hrun, clearFiles_run.
    + by rewrite reached_clear_at, clear_at_idemp.
    + by rewrite reached_clear_at, allocated_clear_at.
  - unfold allocated in Hall. rewrite Forall_forall in Hall.
    split; apply Forall_forall; intros o Ho.
    + assert (o ∈ reached h diagnostics) as Hin
        by (apply elem_of_reached; eauto).
      by apply file_cleared_clear_at, Hall.
    + apply Forall_forall. intros o2 Ho2.
      assert (o2 ∈ reached h diagnostics) as Hin
        by (apply elem_of_reached; eauto).
      by apply file_cleared_clear_at, Hall.
Qed.

(** The sample store is well formed, and the sanitizer does on it what C5
    says. *)
Lemma clearFiles_idempotent_and_clears_sample :
  ∃ h',
    clearFiles sample_diagnostics sample_heap = Normal (sample_diagnostics, h')
    ∧ (let* once := clearFiles sample_diagnostics in clearFiles once) sample_heap
      = Normal (sample_diagnostics, h')
    ∧ Forall (file_cleared h') sample_diagnostics
    ∧ Forall (λ o, Forall (file_cleared h') (related sample_heap o))
             sample_diagnostics.
Proof.
  apply (clearFiles_idempotent_and_clears sample_diagnostics sample_heap).
  unfold allocated. apply (bool_decide_unpack _). vm_compute. exact I.
Defined.

(** C6. On such a list, [clearFiles] returns the very list it was given, so
    its length and order are unchanged; every object of the store keeps all
    its fields other than [file]; and an object that is neither a diagnostic
    of the list nor an entry of a related list is not written at all. *)
Theorem clearFiles_frame (diagnostics : list loc) (h : Heap) :
  allocated h (reached h diagnostics) →
  ∃ h',
    clearFiles diagnostics h = Normal (diagnostics, h')
    ∧ (∀ o, Diagnostic.others <$> h' !! o = Diagnostic.others <$> h !! o)
    ∧ (∀ o, o ∉ reached h diagnostics → h' !! o = h !! o).
Proof.
  intros Hall. exists (clear_at (reached h diagnostics) h).
  split; [by apply clearFiles_run|]. split.
  - intros o. apply others_clear_at.
  - intros o Ho. by rewrite lookup_clear_at, decide_False.
Qed.

(** The sample store again, for the frame. *)
Lemma clearFiles_frame_sample :
  ∃ h',
    clearFiles sample_diagnostics sample_heap = Normal (sample_diagnostics, h')
    ∧ (∀ o, Diagnostic.others <$> h' !! o = Diagnostic.others <$> sample_heap !! o)
    ∧ (∀ o, o ∉ reached sample_heap sample_diagnostics →
            h' !! o = sample_heap !! o).
Proof.
  apply (clearFiles_frame sample_diagnostics sample_heap).
  unfold allocated. apply (bool_decide_unpack _). vm_compute. exact I.
Defined.

(** A dangling entry is the one way the sanitizer can fail. *)
Example clearFiles_dangling :
  clearFiles [7%positive] sample_heap
  = Throw (TypeError "Cannot set properties of undefined").
Proof. reflexivity. Qed.

(** A script that registers nothing, in a scope with [importScripts]:
    construction fails. *)
Lemma create_cases_sample :
  create ∅ (Some silent_script) [] sample_createData empty_scope
  = Throw (missing_factory_error "custom.js").
Proof.
  refine (proj1 (proj1 (create_cases ∅ [] sample_createData empty_scope)
                   "custom.js" silent_script empty_scope _ _ _) _);
    [reflexivity | discriminate | reflexivity | reflexivity].
Defined.

(** ** The scenarios of the specification *)

(** The tier of the year 2017: the year-qualified name when it is
    registered, ["lib.es6.d.ts"] when it is not. *)
Example default_lib_2017 (this : TypeScriptWorker) :
  getDefaultLibFileName {[ "lib.es2017.full.d.ts" := "interface Array<T> {}" ]}
                        (mkOptions (Some 4) None) this
  = Normal ("lib.es2017.full.d.ts", this).
Proof.
  rewrite getDefaultLibFileName_tier. unfold default_lib_of_tier.
  rewrite decide_False by lia. rewrite decide_False by (intros [? _]; lia).
  rewrite decide_True; [done|]. left. apply elem_of_dom. by eexists.
Qed.

Example default_lib_2017_missing :
  getDefaultLibFileName ∅ (mkOptions (Some 4) None) (mkWorker [] (mkOptions (Some 4) None) [])
  = Normal ("lib.es6.d.ts", mkWorker [] (mkOptions (Some 4) None) []).
Proof. reflexivity. Qed.

(** An extra lib named ["es5"], the built-in ["lib.es5.d.ts"], a built-in
    named ["es5"] and an open document with the URI ["es5"]: the document
    wins over the exact built-in, the exact built-in over the shorthand, the
    shorthand over the extra lib. *)
Example resolution_order :
  let extra := [("es5", ExtraLib.mk "extra" 1)] in
  let shorthand : gmap string string := {[ "lib.es5.d.ts" := "shorthand" ]} in
  let exact : gmap string string := <[ "es5" := "exact" ]> shorthand in
  let options := mkOptions (Some 99) None in
  let closed := mkWorker [] options extra in
  let opened := mkWorker [MirrorModel.mk "es5" 3 "document"] options extra in
  _getScriptText ∅ "es5" closed = Normal (Some (Str "extra"), closed)
  ∧ _getScriptText shorthand "es5" closed
    = Normal (Some (Str "shorthand"), closed)
  ∧ _getScriptText exact "es5" closed = Normal (Some (Str "exact"), closed)
  ∧ _getScriptText exact "es5" opened = Normal (Some (Str "document"), opened)
  ∧ _getScriptText exact "es2015" opened = Normal (None, opened).
Proof. repeat split; reflexivity. Qed.

(** The version of an open document is read at the time of the call. *)
Example version_follows_document (libFileMap : gmap string string)
    (uri text : string) (version : Z) (rest : list MirrorModel.t)
    (options : CompilerOptions) (extra : JsObject.t ExtraLib.t) :
  let this := mkWorker (MirrorModel.mk uri version text :: rest) options extra in
  getScriptVersion libFileMap uri this = Normal (pretty version, this).
Proof.
  intros this.
  destruct (getDefaultLibFileName_total libFileMap options this) as [name H].
  rewrite (getScriptVersion_versions libFileMap uri this name H).
  unfold served_version, open_document. simpl. by rewrite decide_True.
Qed.

(** * Further properties of the code *)

(** ** The host as a file system *)

Lemma getDefaultLibFileName_eq
    (libFileMap : gmap string string) (options : CompilerOptions)
    (this : TypeScriptWorker) :
  getDefaultLibFileName libFileMap options this
  = Normal (default_lib_name libFileMap options this, this).
Proof.
  destruct options as [[t|] js]; unfold default_lib_name; simpl.
  - apply getDefaultLibFileName_tier.
  - apply getDefaultLibFileName_no_target.
Qed.

Lemma getScriptVersion_eq
    (libFileMap : gmap string string) (fileName : string)
    (this : TypeScriptWorker) :
  getScriptVersion libFileMap fileName this
  = Normal (served_version this
              (default_lib_name libFileMap (_compilerOptions this) this)
              fileName, this).
Proof. apply getScriptVersion_versions, getDefaultLibFileName_eq. Qed.

Lemma open_document_None (this : TypeScriptWorker) (fileName : string) :
  open_document this fileName = None ↔ fileName ∉ uris this.
Proof.
  unfold open_document, uris. rewrite fmap_None, list_find_None.
  rewrite list_elem_of_fmap, Forall_forall. split.
  - intros H (m & -> & Hm). by apply (H m).
  - intros H m Hm Hu. apply H. by exists m.
Qed.

Lemma open_document_Some (this : TypeScriptWorker) (fileName : string)
    (m : MirrorModel.t) :
  open_document this fileName = Some m →
  MirrorModel.uri m = fileName ∧ m ∈ _ctx this.
Proof.
  unfold open_document. intros H. apply fmap_Some in H as ([i x] & H & ->).
  apply list_find_Some in H as (Hi & Hu & _). split; [done|].
  by eapply list_elem_of_lookup_2.
Qed.

(** A decimal numeral has at least one digit. *)
Lemma pretty_N_go_length (x : N) (s : string) :
  (String.length s ≤ String.length (pretty_N_go x s))%nat.
Proof.
  revert s. induction (N.lt_wf_0 x) as [x _ IH]. intros s.
  destruct (decide (x = 0)%N) as [->|Hx]; [by rewrite pretty_N_go_0|].
  rewrite pretty_N_go_step by lia.
  etrans; [|apply IH; apply N.div_lt; lia]. simpl. lia.
Qed.

Lemma pretty_Z_nonempty (x : Z) : pretty x ≠ "".
Proof.
  assert (∀ p : positive, pretty p ≠ "") as Hpos.
  { intros p. unfold pretty, pretty_positive, pretty, pretty_N.
    rewrite decide_False by done. rewrite pretty_N_go_step by lia.
    intros H.
    pose proof (pretty_N_go_length (N.pos p `div` 10)
      (String (pretty_N_char (N.pos p `mod` 10)) "")) as Hlen.
    rewrite H in Hlen. simpl in Hlen. lia. }
  destruct x as [|p|p]; unfold pretty, pretty_Z; [done|apply Hpos|done].
Qed.

(** Every file that the host lists resolves to something: [getScriptText]
    never answers [undefined] for it and [getScriptSnapshot] returns an
    object. What it resolves to is a text whenever the name is an open
    document, an own key of the built-in table, or no name of the
    prototype; an extra lib stored under a name of the prototype, such as
    ["constructor"], is out of reach: the host serves the builtin. *)
Theorem listed_files_are_readable
    (libFileMap : gmap string string) (this : TypeScriptWorker)
    (names : list string) (fileName : string) :
  getScriptFileNames this = Normal (names, this) →
  fileName ∈ names →
  ∃ text,
    getScriptText libFileMap fileName this = Normal (Resolved (Some text), this)
    ∧ getScriptSnapshot libFileMap fileName this
      = Normal (Some (snapshot_object text), this)
    ∧ (fileName ∈ uris this ∨ fileName ∈ dom libFileMap
       ∨ inherited fileName = false → ∃ s, text = Str s)
    ∧ ((fileName ∉ uris this) ∧ libFileMap !! fileName = None
       ∧ inherited fileName = true → text = Builtin fileName).
Proof.
  rewrite getScriptFileNames_eq. intros [= <-] Hin.
  pose proof (internal_text_resolution libFileMap fileName this) as H.
  assert (∃ text, served_text libFileMap this fileName = Some text
    ∧ (fileName ∈ uris this ∨ fileName ∈ dom libFileMap
       ∨ inherited fileName = false → ∃ s, text = Str s)
    ∧ ((fileName ∉ uris this) ∧ libFileMap !! fileName = None
       ∧ inherited fileName = true → text = Builtin fileName))
    as (text & Ht & Hstr & Hbuiltin).
  { unfold served_text.
    destruct (open_document this fileName) as [m|] eqn:Hopen.
    { eexists. split; [done|]. split; [by eexists|].
      intros (Hdoc & _). apply open_document_None in Hdoc. congruence. }
    apply open_document_None in Hopen.
    destruct (libFileMap !! fileName) as [x|] eqn:Hexact.
    { eexists. split; [done|]. split; [by eexists|]. by intros (_ & ? & _). }
    destruct (inherited fileName) eqn:Hinh.
    { eexists. split; [done|]. split; [|done].
      intros [?|[Hd|?]]; try done.
      apply elem_of_dom in Hd as [? ?]. congruence. }
    apply elem_of_app in Hin as [Hin|Hin]; [done|].
    apply JsObject_get_Some in Hin as [lib Hlib]. rewrite Hlib.
    destruct (libFileMap !! (_ +:+ _)) as [x|];
      rewrite ?union_Some_l, ?option_union_None_l; simpl;
      (eexists; split; [done|]; split; [by eexists | by intros (_ & _ & ?)]). }
  exists text. unfold getScriptText, getScriptSnapshot, bind, ret.
  by rewrite H, Ht.
Qed.

Lemma listed_files_are_readable_sample :
  ∃ text,
    getScriptText sample_libs "file:///globals.d.ts" sample_worker
    = Normal (Resolved (Some text), sample_worker)
    ∧ getScriptSnapshot sample_libs "file:///globals.d.ts" sample_worker
      = Normal (Some (snapshot_object text), sample_worker)
    ∧ ("file:///globals.d.ts" ∈ uris sample_worker
       ∨ "file:///globals.d.ts" ∈ dom sample_libs
       ∨ inherited "file:///globals.d.ts" = false → ∃ s, text = Str s)
    ∧ (("file:///globals.d.ts" ∉ uris sample_worker)
       ∧ sample_libs !! "file:///globals.d.ts" = None
       ∧ inherited "file:///globals.d.ts" = true
       → text = Builtin "file:///globals.d.ts").
Proof.
  apply (listed_files_are_readable sample_libs sample_worker
           ["file:///main.ts"; "file:///globals.d.ts"]);
    [reflexivity | apply list_elem_of_further, list_elem_of_here].
Defined.

(** [getScriptVersion] answers the empty string exactly for a name that is
    no open document, not the default library, no extra lib and no name of
    the prototype (for such a name the answer is ["undefined"]); so every
    file that the host lists has a version. *)
Theorem version_unknown_iff
    (libFileMap : gmap string string) (this : TypeScriptWorker)
    (fileName : string) :
  (getScriptVersion libFileMap fileName this = Normal ("", this)
   ↔ (fileName ∉ uris this)
     ∧ fileName ≠ default_lib_name libFileMap (_compilerOptions this) this
     ∧ (fileName ∉ JsObject.keys (_extraLibs this))
     ∧ inherited fileName = false)
  ∧ (fileName ∈ (uris this ++ JsObject.keys (_extraLibs this))%list →
     getScriptVersion libFileMap fileName this ≠ Normal ("", this)).
Proof.
  assert (getScriptVersion libFileMap fileName this = Normal ("", this)
   ↔ (fileName ∉ uris this)
     ∧ fileName ≠ default_lib_name libFileMap (_compilerOptions this) this
     ∧ (fileName ∉ JsObject.keys (_extraLibs this))
     ∧ inherited fileName = false) as Hiff.
  { rewrite getScriptVersion_eq, <- open_document_None, <- JsObject_get_None.
    unfold served_version.
    destruct (open_document this fileName) as [m|].
    { split; [intros [= H]; (by apply pretty_Z_nonempty in H) | (by intros [? _])]. }
    case_decide as Hd.
    { split; [done | intros (_ & ? & _); done]. }
    destruct (JsObject.get _ fileName) as [lib|].
    - split; [intros [= H]; (by apply pretty_Z_nonempty in H)
             | (by intros (_ & _ & ? & _))].
    - destruct (inherited fileName).
      + split; [done | (by intros (_ & _ & _ & ?))].
      + done. }
  split; [done|]. intros Hin H. apply Hiff in H as (H1 & _ & H2 & _).
  apply elem_of_app in Hin. tauto.
Qed.

Lemma open_document_first (this : TypeScriptWorker) (fileName : string)
    (before after : list MirrorModel.t) (m : MirrorModel.t) :
  _ctx this = (before ++ m :: after)%list →
  Forall (λ m', MirrorModel.uri m' ≠ fileName) before →
  MirrorModel.uri m = fileName →
  open_document this fileName = Some m.
Proof.
  intros Hctx Hbefore Hm. rewrite <- find_model_open_document, Hctx.
  clear Hctx. induction Hbefore as [|m' before Hm' _ IH]; simpl.
  - by rewrite decide_True.
  - by rewrite decide_False.
Qed.

(** Among the open documents with one URI the first in the order of the
    directory is the one the host serves, and it hides every registry entry
    of that name: version and text are those of the document, whatever the
    Lib Registry and the Extra-Lib Registry hold. *)
Theorem first_document_wins
    (libFileMap : gmap string string) (this : TypeScriptWorker)
    (fileName : string) (before after : list MirrorModel.t)
    (m : MirrorModel.t) :
  _ctx this = (before ++ m :: after)%list →
  Forall (λ m', MirrorModel.uri m' ≠ fileName) before →
  MirrorModel.uri m = fileName →
  getScriptVersion libFileMap fileName this
  = Normal (pretty (MirrorModel.version m), this)
  ∧ _getScriptText libFileMap fileName this
    = Normal (Some (Str (MirrorModel.getValue m)), this).
Proof.
  intros Hctx Hbefore Hm.
  pose proof (open_document_first this fileName before after m Hctx Hbefore Hm)
    as Hopen.
  rewrite getScriptVersion_eq, internal_text_resolution.
  unfold served_version, served_text. by rewrite Hopen.
Qed.

Lemma first_document_wins_sample :
  let stale := MirrorModel.mk "lib.es5.d.ts" 9 "stale copy" in
  let live := MirrorModel.mk "lib.es5.d.ts" 4 "live copy" in
  let this :=
    mkWorker [MirrorModel.mk "file:///main.ts" 3 "let x = 1"; live; stale]
             (mkOptions (Some 4) None)
             [("lib.es5.d.ts", ExtraLib.mk "extra copy" 7)] in
  getScriptVersion sample_libs "lib.es5.d.ts" this = Normal ("4", this)
  ∧ _getScriptText sample_libs "lib.es5.d.ts" this
    = Normal (Some (Str "live copy"), this).
Proof.
  intros stale live this.
  apply (first_document_wins sample_libs this "lib.es5.d.ts"
           [MirrorModel.mk "file:///main.ts" 3 "let x = 1"] [stale] live);
    [reflexivity | repeat constructor; discriminate | reflexivity].
Defined.

(** The version string tells two versions of a document apart: when the
    version number of the served document differs between two states, so
    does the answer of [getScriptVersion]. *)
Theorem document_versions_are_told_apart
    (libFileMap : gmap string string) (this1 this2 : TypeScriptWorker)
    (fileName : string) (m1 m2 : MirrorModel.t) (v1 v2 : string) :
  open_document this1 fileName = Some m1 →
  open_document this2 fileName = Some m2 →
  MirrorModel.version m1 ≠ MirrorModel.version m2 →
  getScriptVersion libFileMap fileName this1 = Normal (v1, this1) →
  getScriptVersion libFileMap fileName this2 = Normal (v2, this2) →
  v1 ≠ v2.
Proof.
  intros H1 H2 Hne. rewrite !getScriptVersion_eq. unfold served_version.
  rewrite H1, H2. intros [= <-] [= <-] Heq.
  by apply Hne, (inj pretty).
Qed.

Lemma document_versions_are_told_apart_sample : "3" ≠ "4".
Proof.
  set (edited :=
    mkWorker [MirrorModel.mk "file:///main.ts" 4 "let x = 2"]
             (mkOptions (Some 4) (Some false))
             [("file:///globals.d.ts", ExtraLib.mk "declare let y: number" 2)]).
  apply (document_versions_are_told_apart sample_libs sample_worker edited
           "file:///main.ts"
           (MirrorModel.mk "file:///main.ts" 3 "let x = 1")
           (MirrorModel.mk "file:///main.ts" 4 "let x = 2"));
    [reflexivity | reflexivity | simpl; lia | reflexivity | reflexivity].
Defined.

(** ** The default library *)

Lemma registered_readable
    (libFileMap : gmap string string) (this : TypeScriptWorker) (name : string) :
  registered libFileMap this name →
  is_Some (resolved_text libFileMap this name).
Proof.
  intros [H|H]; apply not_eq_None_Some; unfold resolved_text;
    rewrite !option_union_eq_None, !fmap_None.
  - apply elem_of_dom in H as [x Hx]. rewrite Hx. intros (((_ & ?) & _) & _). done.
  - rewrite JsObject_get_None. tauto.
Qed.

(** The default library is one of the two fixed names, ["lib.d.ts"] and
    ["lib.es6.d.ts"], or a name that is present in one of the registries;
    in that case the host can read it. The fixed names are answered without
    a look at the registries. *)
Theorem default_lib_fixed_or_readable
    (libFileMap : gmap string string) (options : CompilerOptions)
    (this : TypeScriptWorker) :
  ∃ name,
    getDefaultLibFileName libFileMap options this = Normal (name, this)
    ∧ (name = "lib.d.ts" ∨ name = "lib.es6.d.ts"
       ∨ registered libFileMap this name
         ∧ ∃ text, _getScriptText libFileMap name this
                   = Normal (Some (Str text), this)).
Proof.
  exists (default_lib_name libFileMap options this).
  split; [apply getDefaultLibFileName_eq|].
  assert (∀ name, inherited name = false → registered libFileMap this name →
            registered libFileMap this name
            ∧ ∃ text, _getScriptText libFileMap name this
                      = Normal (Some (Str text), this))
    as Hread.
  { intros name Hni R. split; [done|].
    destruct (registered_readable _ _ _ R) as [text Ht]. exists text.
    by rewrite internal_text_resolution, (served_text_plain _ _ _ Hni), Ht. }
  unfold default_lib_name, default_lib_of_tier, year_qualified.
  destruct (target options) as [t|]; repeat case_decide; auto;
    right; right; (apply Hread; [apply not_inherited_l | tauto]).
Qed.

(** A record without a target and a record with the target 99 get the same
    default library exactly when ["lib.esnext.full.d.ts"] is in neither
    registry: the missing target is read as 99 only after the switch. *)
Theorem missing_target_is_not_esnext
    (libFileMap : gmap string string) (js : option bool)
    (this : TypeScriptWorker) :
  getDefaultLibFileName libFileMap (mkOptions None js) this
  = getDefaultLibFileName libFileMap (mkOptions (Some 99) js) this
  ↔ ¬ registered libFileMap this "lib.esnext.full.d.ts".
Proof.
  rewrite !getDefaultLibFileName_eq. unfold default_lib_name, default_lib_of_tier.
  cbn [target]. rewrite (decide_False (P := 99 = 0 ∨ 99 = 1)) by lia.
  destruct (decide (registered libFileMap this "lib.esnext.full.d.ts")) as [R|R].
  - rewrite (decide_True (P := 99 = 99 ∧ _)) by done.
    split; [|intros NR; by destruct NR].
    case_decide; intros [= Heq]; vm_compute in Heq; discriminate.
  - rewrite (decide_False (P := 99 = 99 ∧ _)) by tauto. done.
Qed.

Lemma registered_keys (libFileMap : gmap string string)
    (this this' : TypeScriptWorker) (name : string) :
  JsObject.keys (_extraLibs this') = JsObject.keys (_extraLibs this) →
  registered libFileMap this' name ↔ registered libFileMap this name.
Proof. unfold registered. by intros ->. Qed.

Lemma default_lib_name_keys (libFileMap : gmap string string)
    (options : CompilerOptions) (this this' : TypeScriptWorker) :
  JsObject.keys (_extraLibs this') = JsObject.keys (_extraLibs this) →
  default_lib_name libFileMap options this'
  = default_lib_name libFileMap options this.
Proof.
  intros Hkeys. unfold default_lib_name, default_lib_of_tier.
  destruct (target options) as [t|].
  - case_decide; [done|].
    rewrite (decide_ext (t = 99 ∧ registered libFileMap this' _)
                        (t = 99 ∧ registered libFileMap this _))
      by (by rewrite (registered_keys _ _ _ _ Hkeys)).
    case_decide; [done|]. apply decide_ext. by apply registered_keys.
  - apply decide_ext. by apply registered_keys.
Qed.

(** The version of the default library is pinned: while no open document
    has its name, [getScriptVersion] answers ["1"] for it, also when the
    library is served from the Extra-Lib Registry and that registry is
    replaced by one with the same names and other versions and contents. The
    text then follows the new registry; the version does not. *)
Theorem default_lib_version_is_pinned
    (libFileMap : gmap string string) (this : TypeScriptWorker)
    (extra : JsObject.t ExtraLib.t) :
  let name := default_lib_name libFileMap (_compilerOptions this) this in
  name ∉ uris this →
  JsObject.keys extra = JsObject.keys (_extraLibs this) →
  getScriptVersion libFileMap name this = Normal ("1", this)
  ∧ (let* _ := updateExtraLibs extra in getScriptVersion libFileMap name) this
    = Normal ("1", with_extraLibs this extra)
  ∧ (libFileMap !! name = None →
     libFileMap !! ("lib." +:+ name +:+ ".d.ts") = None →
     (let* _ := updateExtraLibs extra in _getScriptText libFileMap name) this
     = Normal (Str <$> (ExtraLib.content <$> JsObject.get extra name),
               with_extraLibs this extra)).
Proof.
  intros name Hclosed Hkeys.
  assert (open_document (with_extraLibs this extra) name = None) as Hclosed'.
  { apply open_document_None. apply Hclosed. }
  apply open_document_None in Hclosed.
  assert (default_lib_name libFileMap (_compilerOptions this)
            (with_extraLibs this extra) = name) as Hname
    by (by apply default_lib_name_keys).
  split; [|split].
  - rewrite getScriptVersion_eq. unfold served_version.
    rewrite Hclosed. by rewrite decide_True.
  - unfold bind, updateExtraLibs, modify. fold (with_extraLibs this extra).
    rewrite getScriptVersion_eq. unfold served_version.
    rewrite Hclosed'. cbn [_compilerOptions with_extraLibs].
    fold (with_extraLibs this extra). rewrite Hname. by rewrite decide_True.
  - intros H1 H2. unfold bind, updateExtraLibs, modify.
    fold (with_extraLibs this extra).
    assert (inherited name = false) as Hni.
    { apply (default_lib_not_inherited libFileMap (_compilerOptions this) this).
      apply getDefaultLibFileName_eq. }
    rewrite internal_text_resolution, (served_text_plain _ _ _ Hni).
    unfold resolved_text.
    rewrite Hclosed', H1, H2. simpl. by rewrite !option_union_None_l.
Qed.

Lemma default_lib_version_is_pinned_sample :
  let this :=
    mkWorker [] (mkOptions (Some 5) None)
             [("lib.es2018.full.d.ts", ExtraLib.mk "first edition" 1)] in
  let extra := [("lib.es2018.full.d.ts", ExtraLib.mk "second edition" 2)] in
  getScriptVersion sample_libs "lib.es2018.full.d.ts" this = Normal ("1", this)
  ∧ (let* _ := updateExtraLibs extra in
     getScriptVersion sample_libs "lib.es2018.full.d.ts") this
    = Normal ("1", with_extraLibs this extra)
  ∧ (sample_libs !! "lib.es2018.full.d.ts" = None →
     sample_libs !! "lib.lib.es2018.full.d.ts.d.ts" = None →
     (let* _ := updateExtraLibs extra in
      _getScriptText sample_libs "lib.es2018.full.d.ts") this
     = Normal (Some (Str "second edition"), with_extraLibs this extra)).
Proof.
  intros this extra.
  apply (default_lib_version_is_pinned sample_libs this extra);
    [apply not_elem_of_nil | reflexivity].
Defined.

(** ** Replacing the Extra-Lib Registry *)

Lemma updateExtraLibs_then {A} (extra : JsObject.t ExtraLib.t)
    (k : JS TypeScriptWorker A) (this : TypeScriptWorker) :
  (let* _ := updateExtraLibs extra in k) this = k (with_extraLibs this extra).
Proof. reflexivity. Qed.

Lemma getScriptText_eq
    (libFileMap : gmap string string) (fileName : string)
    (this : TypeScriptWorker) :
  getScriptText libFileMap fileName this
  = Normal (Resolved (served_text libFileMap this fileName), this).
Proof.
  unfold getScriptText, bind, ret. by rewrite internal_text_resolution.
Qed.

(** An extra lib never takes the place of an open document or of a built-in
    library, be it under its exact name or under the shorthand: for such a
    name the host serves the same after any replacement of the registry;
    and what it serves is a text whenever the name is an open document, an
    own key of the built-in table, or no name of the prototype. *)
Theorem extra_libs_cannot_override
    (libFileMap : gmap string string) (this : TypeScriptWorker)
    (fileName : string) (extra : JsObject.t ExtraLib.t) :
  fileName ∈ uris this ∨ fileName ∈ dom libFileMap
  ∨ "lib." +:+ fileName +:+ ".d.ts" ∈ dom libFileMap →
  ∃ text,
    _getScriptText libFileMap fileName this = Normal (Some text, this)
    ∧ (let* _ := updateExtraLibs extra in _getScriptText libFileMap fileName) this
      = Normal (Some text, with_extraLibs this extra)
    ∧ (fileName ∈ uris this ∨ fileName ∈ dom libFileMap
       ∨ inherited fileName = false → ∃ s, text = Str s).
Proof.
  intros H. unfold bind, updateExtraLibs, modify.
  fold (with_extraLibs this extra). rewrite !internal_text_resolution.
  unfold served_text.
  change (open_document (with_extraLibs this extra) fileName)
    with (open_document this fileName).
  destruct (open_document this fileName) as [m|] eqn:Hopen.
  { eexists. repeat split. by eexists. }
  destruct (libFileMap !! fileName) as [x|] eqn:Hexact.
  { eexists. repeat split. by eexists. }
  destruct (inherited fileName) eqn:Hinh.
  { eexists. repeat split. intros [Hd|[Hd|?]]; [| |done].
    - by apply open_document_None in Hopen.
    - apply elem_of_dom in Hd as [? ?]. congruence. }
  destruct (libFileMap !! (_ +:+ _)) as [x|] eqn:Hshort.
  { exists (Str x). rewrite !union_Some_l. repeat split. by eexists. }
  exfalso. destruct H as [H|[H|H]].
  - by apply open_document_None in Hopen.
  - apply elem_of_dom in H as [? H]. congruence.
  - apply elem_of_dom in H as [? H]. congruence.
Qed.

Lemma extra_libs_cannot_override_sample :
  ∃ text,
    _getScriptText sample_libs "es5" sample_worker
    = Normal (Some text, sample_worker)
    ∧ (let* _ := updateExtraLibs [("es5", ExtraLib.mk "mine" 1)] in
       _getScriptText sample_libs "es5") sample_worker
      = Normal (Some text,
                with_extraLibs sample_worker [("es5", ExtraLib.mk "mine" 1)])
    ∧ ("es5" ∈ uris sample_worker ∨ "es5" ∈ dom sample_libs
       ∨ inherited "es5" = false → ∃ s, text = Str s).
Proof.
  apply (extra_libs_cannot_override sample_libs sample_worker "es5").
  right. right. apply elem_of_dom. eexists. reflexivity.
Defined.

(** The replacement is wholesale: after [updateExtraLibs], a name that the
    new registry does not have, that is no open document and no built-in
    library, and that plain objects do not inherit, is neither listed nor
    readable, whatever the old registry held. *)
Theorem replaced_extra_libs_are_gone
    (libFileMap : gmap string string) (this : TypeScriptWorker)
    (fileName : string) (extra : JsObject.t ExtraLib.t) :
  inherited fileName = false →
  fileName ∉ uris this →
  libFileMap !! fileName = None →
  libFileMap !! ("lib." +:+ fileName +:+ ".d.ts") = None →
  fileName ∉ JsObject.keys extra →
  ∃ names,
    (let* _ := updateExtraLibs extra in getScriptFileNames) this
    = Normal (names, with_extraLibs this extra)
    ∧ (fileName ∉ names)
    ∧ (let* _ := updateExtraLibs extra in getScriptText libFileMap fileName) this
      = Normal (Resolved None, with_extraLibs this extra).
Proof.
  intros Hni Hclosed H1 H2 Hextra. eexists. split; [reflexivity|]. split.
  - rewrite elem_of_app. intros [H|H]; [by apply Hclosed | by apply Hextra].
  - rewrite updateExtraLibs_then, getScriptText_eq. unfold served_text.
    assert (open_document (with_extraLibs this extra) fileName = None) as ->
      by (by apply open_document_None).
    apply JsObject_get_None in Hextra.
    cbn [_extraLibs with_extraLibs]. by rewrite H1, H2, Hextra, Hni.
Qed.

Lemma replaced_extra_libs_are_gone_sample :
  ∃ names,
    (let* _ := updateExtraLibs [] in getScriptFileNames) sample_worker
    = Normal (names, with_extraLibs sample_worker [])
    ∧ ("file:///globals.d.ts" ∉ names)
    ∧ (let* _ := updateExtraLibs [] in
       getScriptText sample_libs "file:///globals.d.ts") sample_worker
      = Normal (Resolved None, with_extraLibs sample_worker []).
Proof.
  apply (replaced_extra_libs_are_gone sample_libs sample_worker
           "file:///globals.d.ts" []);
    [ reflexivity
    | apply (bool_decide_unpack _); vm_compute; exact I
    | reflexivity | reflexivity | apply not_elem_of_nil ].
Defined.

(** ** Script kinds *)

(** The extension rule at work on a name with two dots. *)
Lemma getScriptKind_by_extension_sample :
  getScriptKind "file:///lib.d.ts" sample_worker
  = Normal (kind_of_extension (_compilerOptions sample_worker) "file:///lib.d.ts",
            sample_worker).
Proof.
  apply (getScriptKind_by_extension "file:///lib.d.ts" sample_worker).
  left. vm_compute. eexists. reflexivity.
Defined.

Lemma extension_after_dot (base e : string) :
  extension e = None → extension (base +:+ "." +:+ e) = Some e.
Proof.
  intros He. induction base as [|a base IH]; simpl.
  - change ("" +:+ e) with e. by rewrite He.
  - by rewrite IH.
Qed.

Lemma getScriptKind_suffix (base e : string) (this : TypeScriptWorker) :
  extension e = None →
  getScriptKind (base +:+ "." +:+ e) this = getScriptKind ("." +:+ e) this.
Proof.
  intros He. unfold getScriptKind. rewrite !suffix_extension.
  pose proof (extension_after_dot "" e He) as H0.
  change ("" +:+ "." +:+ e) with ("." +:+ e) in H0.
  rewrite (extension_after_dot base e He), H0. done.
Qed.

(** Whatever comes before the last dot, and whatever [allowJs] says, a name
    that ends in [.ts] is TS (declaration files [.d.ts] included), in [.tsx]
    TSX, in [.js] JS and in [.jsx] JSX. *)
Theorem getScriptKind_of_known_extensions
    (base : string) (this : TypeScriptWorker) :
  getScriptKind (base +:+ ".ts") this = Normal (SK_TS, this)
  ∧ getScriptKind (base +:+ ".tsx") this = Normal (SK_TSX, this)
  ∧ getScriptKind (base +:+ ".js") this = Normal (SK_JS, this)
  ∧ getScriptKind (base +:+ ".jsx") this = Normal (SK_JSX, this).
Proof.
  repeat split.
  - by rewrite (getScriptKind_suffix base "ts").
  - by rewrite (getScriptKind_suffix base "tsx").
  - by rewrite (getScriptKind_suffix base "js").
  - by rewrite (getScriptKind_suffix base "jsx").
Qed.

(** With any other extension that has no dot in it, only [allowJs]
    decides, and the part of the name before the last dot plays no role. *)
Theorem getScriptKind_of_other_extensions
    (base e : string) (this : TypeScriptWorker) :
  extension e = None →
  e ∉ ["ts"; "tsx"; "js"; "jsx"] →
  getScriptKind (base +:+ "." +:+ e) this
  = Normal (if truthy (allowJs (_compilerOptions this)) then SK_JS else SK_TS,
            this).
Proof.
  intros He Hother. unfold getScriptKind. rewrite suffix_extension.
  rewrite (extension_after_dot base e He). simpl.
  repeat (case_decide; [exfalso; apply Hother; subst; repeat constructor|]).
  done.
Qed.

Lemma getScriptKind_of_other_extensions_sample :
  getScriptKind ("file:///data" +:+ "." +:+ "json") sample_worker
  = Normal (SK_TS, sample_worker).
Proof.
  apply (getScriptKind_of_other_extensions "file:///data" "json" sample_worker);
    [reflexivity | apply (bool_decide_unpack _); vm_compute; exact I].
Defined.

(** ** Script snapshots *)

Lemma string_drop_length (n : nat) (s : string) :
  String.length (string_drop n s) = (String.length s - n)%nat.
Proof.
  revert s. induction n as [|n IH]; intros [|a s]; simpl; auto with lia.
Qed.

Lemma string_take_length (n : nat) (s : string) :
  String.length (string_take n s) = (n `min` String.length s)%nat.
Proof.
  revert s. induction n as [|n IH]; intros [|a s]; simpl; auto with lia.
Qed.

Lemma string_take_all (n : nat) (s : string) :
  (String.length s ≤ n)%nat → string_take n s = s.
Proof.
  revert s. induction n as [|n IH]; intros [|a s]; simpl; intros H;
    try done; try lia.
  rewrite IH; [done|lia].
Qed.

Lemma string_take_take_drop (n m : nat) (s : string) :
  string_take n s +:+ string_take m (string_drop n s) = string_take (n + m) s.
Proof.
  revert s. induction n as [|n IH]; intros s; simpl; [done|].
  destruct s as [|a s]; simpl.
  - by destruct m.
  - by rewrite <- IH.
Qed.

Lemma string_drop_drop (n m : nat) (s : string) :
  string_drop m (string_drop n s) = string_drop (n + m) s.
Proof.
  revert s. induction n as [|n IH]; intros s; simpl; [done|].
  destruct s as [|a s]; simpl; [by destruct m|apply IH].
Qed.

Lemma clamp_range (len n : Z) : (0 ≤ len → 0 ≤ clamp len n ≤ len)%Z.
Proof. unfold clamp. lia. Qed.

(** The snapshot of a file gives back the text it was made from:
    [getText(0, getLength())] is the whole text, also with a lower start or
    a higher end, and [getChangeRange] is [undefined]. *)
Theorem snapshot_round_trip (text : string) (start finish : Z) :
  let snapshot := mkSnapshot text in
  (start ≤ 0)%Z → (getLength snapshot ≤ finish)%Z →
  getText snapshot 0 (getLength snapshot) = text
  ∧ getText snapshot start finish = text
  ∧ getChangeRange snapshot = None.
Proof.
  intros snapshot Hs Hf. unfold getText, getLength, substring in *.
  simpl in *. set (len := Z.of_nat (String.length text)) in *.
  assert (∀ a b, (a ≤ 0)%Z → (len ≤ b)%Z →
    string_take (Z.to_nat (clamp len a `max` clamp len b
                           - clamp len a `min` clamp len b))
      (string_drop (Z.to_nat (clamp len a `min` clamp len b)) text) = text)
    as Hall.
  { intros a b Ha Hb. unfold clamp.
    replace (Z.to_nat (_ `min` _)) with 0%nat by lia. simpl.
    apply string_take_all. subst len. lia. }
  split; [apply Hall; lia|]. split; [by apply Hall|done].
Qed.

Lemma snapshot_round_trip_sample :
  let snapshot := mkSnapshot "let x = 1" in
  getText snapshot 0 (getLength snapshot) = "let x = 1"
  ∧ getText snapshot (-3) 100 = "let x = 1"
  ∧ getChangeRange snapshot = None.
Proof.
  intros snapshot.
  apply (snapshot_round_trip "let x = 1" (-3) 100);
    [lia | vm_compute; discriminate].
Defined.

(** [getText] never fails on an index out of range: the indices are brought
    into the text, their order does not matter, and the answer has as many
    units as lie between them. *)
Theorem getText_length (text : string) (start finish : Z) :
  let snapshot := mkSnapshot text in
  let len := getLength snapshot in
  Z.of_nat (String.length (getText snapshot start finish))
  = Z.abs (clamp len finish - clamp len start)
  ∧ getText snapshot start finish = getText snapshot finish start.
Proof.
  intros snapshot len. unfold getText, substring. simpl.
  fold (getLength snapshot). fold len. split.
  - rewrite string_take_length, string_drop_length.
    pose proof (clamp_range len start) as H1.
    pose proof (clamp_range len finish) as H2.
    assert (0 ≤ len)%Z as Hlen by (unfold len, getLength; lia).
    specialize (H1 Hlen). specialize (H2 Hlen).
    unfold len, getLength in *. simpl in *. lia.
  - by rewrite Z.min_comm, Z.max_comm.
Qed.

(** Adjacent ranges of a snapshot join up: for indices in order, the text
    from the first to the second followed by the text from the second to
    the third is the text from the first to the third. *)
Theorem getText_adjacent (text : string) (a b c : Z) :
  let snapshot := mkSnapshot text in
  (a ≤ b)%Z → (b ≤ c)%Z →
  getText snapshot a b +:+ getText snapshot b c = getText snapshot a c.
Proof.
  intros snapshot Hab Hbc. unfold getText, substring. simpl.
  set (len := Z.of_nat (String.length text)).
  assert (clamp len a ≤ clamp len b ≤ clamp len c)%Z as [H1 H2]
    by (unfold clamp; lia).
  assert (0 ≤ clamp len a)%Z as H0 by (unfold clamp, len; lia).
  rewrite !Z.min_l, !Z.max_r by lia.
  replace (Z.to_nat (clamp len b))
    with (Z.to_nat (clamp len a) + Z.to_nat (clamp len b - clamp len a))%nat
    by lia.
  rewrite <- string_drop_drop, string_take_take_drop.
  f_equal. lia.
Qed.

Lemma getText_adjacent_sample :
  getText (mkSnapshot "let x = 1") 0 3 +:+ getText (mkSnapshot "let x = 1") 3 20
  = getText (mkSnapshot "let x = 1") 0 20.
Proof. apply (getText_adjacent "let x = 1" 0 3 20); lia. Defined.

(** ** More on the sanitizer *)

Lemma reached_app (h : Heap) (ds1 ds2 : list loc) :
  reached h (ds1 ++ ds2) = (reached h ds1 ++ reached h ds2)%list.
Proof. unfold reached. apply bind_app. Qed.

Lemma clear_at_same_refs (refs1 refs2 : list loc) (h : Heap) :
  (∀ o, o ∈ refs1 ↔ o ∈ refs2) → clear_at refs1 h = clear_at refs2 h.
Proof.
  intros Hsame. apply map_eq. intros o. rewrite !lookup_clear_at.
  apply decide_ext, Hsame.
Qed.

Lemma cleared_after_clear_at (diagnostics : list loc) (h : Heap) :
  allocated h (reached h diagnostics) →
  let h' := clear_at (reached h diagnostics) h in
  Forall (file_cleared h') diagnostics
  ∧ Forall (λ o, Forall (file_cleared h') (related h o)) diagnostics.
Proof.
  intros Hall h'. unfold allocated in Hall. rewrite Forall_forall in Hall.
  split; apply Forall_forall; intros o Ho.
  - apply file_cleared_clear_at; [|apply Hall]; apply elem_of_reached; eauto.
  - apply Forall_forall. intros o2 Ho2.
    apply file_cleared_clear_at; [|apply Hall]; apply elem_of_reached; eauto.
Qed.

(** Sanitizing two lists one after the other, in either order, leaves the
    store as sanitizing their concatenation does; diagnostics that the lists
    share are no obstacle. *)
Theorem clearFiles_of_two_lists (ds1 ds2 : list loc) (h : Heap) :
  allocated h (reached h (ds1 ++ ds2)) →
  ∃ h',
    clearFiles (ds1 ++ ds2) h = Normal ((ds1 ++ ds2)%list, h')
    ∧ (let* _ := clearFiles ds1 in clearFiles ds2) h = Normal (ds2, h')
    ∧ (let* _ := clearFiles ds2 in clearFiles ds1) h = Normal (ds1, h').
Proof.
  intros Hall. exists (clear_at (reached h (ds1 ++ ds2)) h).
  split; [by apply clearFiles_run|].
  rewrite reached_app in *. apply Forall_app in Hall as [H1 H2].
  split; unfold bind.
  - rewrite (clearFiles_run ds1 h H1), clearFiles_run.
    + by rewrite reached_clear_at, clear_at_app.
    + by rewrite reached_clear_at, allocated_clear_at.
  - rewrite (clearFiles_run ds2 h H2), clearFiles_run.
    + rewrite reached_clear_at, <- clear_at_app. do 2 f_equal.
      apply clear_at_same_refs. intros o. rewrite !elem_of_app. tauto.
    + by rewrite reached_clear_at, allocated_clear_at.
Qed.

Lemma clearFiles_of_two_lists_sample :
  ∃ h',
    clearFiles ([1%positive; 4%positive] ++ [4%positive; 5%positive])%list
               sample_heap
    = Normal (([1%positive; 4%positive] ++ [4%positive; 5%positive])%list, h')
    ∧ (let* _ := clearFiles [1; 4]%positive in clearFiles [4; 5]%positive)
        sample_heap
      = Normal ([4; 5]%positive, h')
    ∧ (let* _ := clearFiles [4; 5]%positive in clearFiles [1; 4]%positive)
        sample_heap
      = Normal ([1; 4]%positive, h').
Proof.
  apply (clearFiles_of_two_lists [1; 4]%positive [4; 5]%positive sample_heap).
  unfold allocated. apply (bool_decide_unpack _). vm_compute. exact I.
Defined.

Lemma forEach_set_file_throws (refs : list loc) (h : Heap) :
  ¬ allocated h refs →
  ∃ message, forEach refs (λ o, set_file o None) h = Throw (TypeError message).
Proof.
  revert h. induction refs as [|o refs IH]; intros h Hnot.
  { destruct Hnot. constructor. }
  rewrite forEach_cons. destruct (h !! o) as [d|] eqn:Hd.
  - rewrite (set_file_None_run o h) by (by eexists). apply IH.
    rewrite allocated_clear_at. intros Hrest. apply Hnot.
    apply Forall_cons. split; [by eexists|done].
  - unfold set_file. rewrite Hd. by eexists.
Qed.

Lemma clearFiles_each_throws (o : loc) (h : Heap) :
  ¬ allocated h (o :: related h o) →
  ∃ message, clearFiles_each o h = Throw (TypeError message).
Proof.
  intros Hnot. unfold clearFiles_each, bind.
  destruct (h !! o) as [d|] eqn:Hd.
  - rewrite (set_file_None_run o h) by (by eexists).
    assert (¬ allocated (clear_at [o] h) (related h o)) as Hrel.
    { rewrite allocated_clear_at. intros Hrel. apply Hnot.
      apply Forall_cons. split; [by eexists|done]. }
    revert Hrel. rewrite <- (related_clear_at [o] h o).
    unfold get_relatedInformation, related.
    destruct (clear_at [o] h !! o) as [d'|]; simpl.
    + destruct (Diagnostic.relatedInformation d') as [rel|]; simpl.
      * apply forEach_set_file_throws.
      * intros Hrel. destruct Hrel. constructor.
    + intros Hrel. destruct Hrel. constructor.
  - unfold set_file. rewrite Hd. by eexists.
Qed.

Lemma clearFiles_throws (diagnostics : list loc) (h : Heap) :
  ¬ allocated h (reached h diagnostics) →
  ∃ message, clearFiles diagnostics h = Throw (TypeError message).
Proof.
  intros Hnot.
  assert (∃ message,
    forEach diagnostics clearFiles_each h = Throw (TypeError message))
    as [message Hloop].
  { revert h Hnot. induction diagnostics as [|o ds IH]; intros h Hnot.
    { destruct Hnot. constructor. }
    rewrite forEach_cons.
    destruct (decide (Forall (λ o, is_Some (h !! o)) (o :: related h o)))
      as [Ho|Ho].
    - rewrite (clearFiles_each_run o h Ho). apply IH.
      rewrite reached_clear_at, allocated_clear_at. intros Hrest. apply Hnot.
      rewrite reached_cons. by apply Forall_app.
    - destruct (clearFiles_each_throws o h Ho) as [message ->]. by eexists. }
  exists message. unfold clearFiles, bind. by rewrite Hloop.
Qed.

(** The sanitizer completes normally exactly when every diagnostic of the
    list and every entry of a related list is an object; on a [null] or
    [undefined] entry it throws, and what it throws is a [TypeError]. *)
Theorem clearFiles_completes_iff (diagnostics : list loc) (h : Heap) :
  ((∃ h', clearFiles diagnostics h = Normal (diagnostics, h'))
   ↔ allocated h (reached h diagnostics))
  ∧ (∀ e, clearFiles diagnostics h = Throw e → ∃ message, e = TypeError message).
Proof.
  destruct (decide (Forall (λ o, is_Some (h !! o)) (reached h diagnostics)))
    as [Hall|Hnot].
  - rewrite (clearFiles_run diagnostics h Hall). split; [|done].
    split; [done|]. by eexists.
  - destruct (clearFiles_throws diagnostics h Hnot) as [message ->]. split.
    + split; [by intros [h' ?]|done].
    + intros e [= <-]. by eexists.
Qed.

(** ** The diagnostics methods of the proxy *)

Lemma sanitizes_run {LanguageService : Type}
    (engine : JS (Realm LanguageService) (list loc))
    (realm : Realm LanguageService) :
  sanitizes engine
    (let* diagnostics := engine in
     let* cleared := on_heap (clearFiles diagnostics) in
     ret (Resolved cleared))
    realm.
Proof.
  unfold sanitizes, bind. destruct (engine realm) as [[ds realm']|e]; [|done].
  intros Hall. exists (clear_at (reached (heap realm') ds) (heap realm')).
  split; [|by apply cleared_after_clear_at].
  unfold on_heap. by rewrite (clearFiles_run ds (heap realm') Hall).
Qed.

(** The four diagnostics methods hand the engine's list on with every
    back-reference cleared, on the diagnostics of the list and on the
    entries of the related lists as the engine left them, and touch nothing
    else of the realm; a fault of the engine is thrown on as it is. *)
Theorem diagnostics_methods_sanitize {LanguageService : Type}
    (ls_getSyntacticDiagnostics ls_getSemanticDiagnostics
       ls_getSuggestionDiagnostics
       : string → JS (Realm LanguageService) (list loc))
    (ls_getCompilerOptionsDiagnostics : JS (Realm LanguageService) (list loc))
    (fileName : string) (realm : Realm LanguageService) :
  sanitizes (ls_getSyntacticDiagnostics fileName)
    (getSyntacticDiagnostics ls_getSyntacticDiagnostics fileName) realm
  ∧ sanitizes (ls_getSemanticDiagnostics fileName)
      (getSemanticDiagnostics ls_getSemanticDiagnostics fileName) realm
  ∧ sanitizes (ls_getSuggestionDiagnostics fileName)
      (getSuggestionDiagnostics ls_getSuggestionDiagnostics fileName) realm
  ∧ sanitizes ls_getCompilerOptionsDiagnostics
      (getCompilerOptionsDiagnostics ls_getCompilerOptionsDiagnostics fileName)
      realm.
Proof. repeat split; apply sanitizes_run. Qed.

(** The sample engine behind [getSemanticDiagnostics]. *)
Lemma diagnostics_methods_sanitize_sample :
  ∃ h',
    getSemanticDiagnostics (λ _, sample_engine) "file:///main.ts" sample_realm
    = Normal (Resolved sample_diagnostics,
              mkRealm (this sample_realm) (_languageService sample_realm) h')
    ∧ Forall (file_cleared h') sample_diagnostics
    ∧ Forall (λ o, Forall (file_cleared h') (related (heap sample_realm) o))
             sample_diagnostics.
Proof.
  apply (proj1 (proj2 (diagnostics_methods_sanitize
                  (λ _, sample_engine) (λ _, sample_engine) (λ _, sample_engine)
                  sample_engine "file:///main.ts" sample_realm))).
  unfold allocated. apply (bool_decide_unpack _). vm_compute. exact I.
Defined.

(** ** More on the factory *)

(** When [create] succeeds, the context and the payload reach the
    constructor as they came. The class is the default one, and then no
    script was executed and the slot is as before; or it is what the factory
    found in the slot after executing the script of the locator returns for
    the default class and the built-in table. *)
Theorem create_constructs
    (libFileMap : gmap string string)
    (importScripts : option (string → JS WorkerGlobalScope ()))
    (ctx : list MirrorModel.t) (createData : CreateData)
    (self self' : WorkerGlobalScope) (instance : Instance) :
  create libFileMap importScripts ctx createData self = Normal (instance, self') →
  ∃ cls,
    instance = New cls ctx createData
    ∧ (cls = TypeScriptWorkerClass
       ∧ customTSWorkerFactory self' = customTSWorkerFactory self
       ∧ executed self' = executed self
       ∨ ∃ factory path,
           customWorkerPath createData = Some path
           ∧ customTSWorkerFactory self' = Some factory
           ∧ cls = factory TypeScriptWorkerClass libFileMap
           ∧ last (executed self') = Some path).
Proof.
  unfold create, run_importScripts, console_warn, bind, gets, modify, ret, throw.
  destruct (customWorkerPath createData) as [path|]; simpl.
  2: { intros [= <- <-]. eexists. split; [done|]. by left. }
  case_bool_decide as Hne.
  2: { intros [= <- <-]. eexists. split; [done|]. by left. }
  destruct importScripts as [run|].
  2: { intros [= <- <-]. eexists. split; [done|]. by left. }
  destruct (run path self) as [[[] self1]|e'] eqn:Hrun; simpl; [|done].
  destruct (customTSWorkerFactory self1) as [factory|] eqn:Hslot; [|done].
  intros [= <- <-]. eexists. split; [done|]. right.
  exists factory, path. simpl. repeat split; try done. apply last_snoc.
Qed.

Lemma create_constructs_sample :
  ∃ cls,
    New (CustomClass "MyWorker") [] sample_createData
    = New cls [] sample_createData
    ∧ (cls = TypeScriptWorkerClass
       ∧ customTSWorkerFactory (mkScope (Some sample_factory) [] ["custom.js"])
         = customTSWorkerFactory empty_scope
       ∧ executed (mkScope (Some sample_factory) [] ["custom.js"])
         = executed empty_scope
       ∨ ∃ factory path,
           customWorkerPath sample_createData = Some path
           ∧ customTSWorkerFactory (mkScope (Some sample_factory) [] ["custom.js"])
             = Some factory
           ∧ cls = factory TypeScriptWorkerClass ∅
           ∧ last (executed (mkScope (Some sample_factory) [] ["custom.js"]))
             = Some path).
Proof.
  apply (create_constructs ∅ (Some registering_script) [] sample_createData
           empty_scope (mkScope (Some sample_factory) [] ["custom.js"])
           (New (CustomClass "MyWorker") [] sample_createData)).
  reflexivity.
Defined.

(** [create] does not reset the slot: a factory that an earlier script left
    there is used when the script of the locator registers nothing, and no
    error is raised. *)
Theorem create_uses_a_stale_factory
    (libFileMap : gmap string string) (run : string → JS WorkerGlobalScope ())
    (ctx : list MirrorModel.t) (createData : CreateData) (path : string)
    (self : WorkerGlobalScope) (factory : WorkerFactory) :
  customWorkerPath createData = Some path → path ≠ "" →
  customTSWorkerFactory self = Some factory →
  run path self = Normal ((), self) →
  create libFileMap (Some run) ctx createData self
  = Normal (New (factory TypeScriptWorkerClass libFileMap) ctx createData,
            mkScope (Some factory) (console self) (executed self ++ [path])).
Proof.
  intros Hpath Hne Hslot Hrun.
  rewrite (create_custom _ _ _ _ _ _ _ Hpath Hne Hrun). by rewrite Hslot.
Qed.

Lemma create_uses_a_stale_factory_sample :
  create ∅ (Some silent_script) [] sample_createData
         (mkScope (Some sample_factory) [] ["earlier.js"])
  = Normal (New (CustomClass "MyWorker") [] sample_createData,
            mkScope (Some sample_factory) [] ["earlier.js"; "custom.js"]).
Proof.
  apply (create_uses_a_stale_factory ∅ silent_script [] sample_createData
           "custom.js" (mkScope (Some sample_factory) [] ["earlier.js"])
           sample_factory);
    [reflexivity | discriminate | reflexivity | reflexivity].
Defined.
